(** * Data-windowing pipeline of the data analysis tool

    A shallow embedding of [modules/file_handler.py]: the spreadsheet
    header guess, the region selector (manual and auto-detected), the
    datetime converter and the date-range filter, together with the
    properties the specification states about them.

    Conventions of the embedding.
    - A Python [str] is a [string] of ASCII characters; [str.upper],
      [str.strip] and the regular-expression class [\d] are therefore the
      ASCII restrictions of the Python ones.
    - A pandas frame carries its row labels ([index]) next to its columns:
      the source mixes label-based access ([.items()], [.idxmax()],
      [.loc]) with positional access ([s[a:]], [.iloc]).
    - Streamlit widgets are inputs: what the user entered is an argument
      of the embedded function. Streamlit output calls ([st.warning],
      [st.success], ...) are collected in a list of [ui_event]. *)

From Stdlib Require Import ZArith Ascii String List Lia Bool DecimalString.
From stdpp Require Import base option list gmap.
Import ListNotations.
Local Open Scope string_scope.
Local Open Scope Z_scope.

(** ** Python strings *)

Module PyStr.

(** Characters [str.strip()] removes: TAB, LF, VT, FF, CR, the separators
    FS, GS, RS, US, and the space. *)
Definition is_space (c : ascii) : bool :=
  let n := nat_of_ascii c in
  ((9 <=? n)%nat && (n <=? 13)%nat) || ((28 <=? n)%nat && (n <=? 32)%nat).

Definition is_digit (c : ascii) : bool :=
  let n := nat_of_ascii c in (48 <=? n)%nat && (n <=? 57)%nat.

Definition is_lower (c : ascii) : bool :=
  let n := nat_of_ascii c in (97 <=? n)%nat && (n <=? 122)%nat.

Definition is_upper (c : ascii) : bool :=
  let n := nat_of_ascii c in (65 <=? n)%nat && (n <=? 90)%nat.

Definition upper_char (c : ascii) : ascii :=
  if is_lower c then ascii_of_nat (nat_of_ascii c - 32) else c.

(** [s.upper()] *)
Fixpoint upper (s : string) : string :=
  match s with
  | EmptyString => EmptyString
  | String c r => String (upper_char c) (upper r)
  end.

Fixpoint lstrip (s : string) : string :=
  match s with
  | EmptyString => EmptyString
  | String c r => if is_space c then lstrip r else s
  end.

Definition reverse (s : string) : string :=
  string_of_list_ascii (rev (list_ascii_of_string s)).

Definition rstrip (s : string) : string := reverse (lstrip (reverse s)).

(** [s.strip()] *)
Definition strip (s : string) : string := rstrip (lstrip s).

(** [w in s]: [w] occurs in [s] as a substring. *)
Fixpoint contains (w s : string) : bool :=
  String.prefix w s ||
  match s with
  | EmptyString => false
  | String _ r => contains w r
  end.

(** [s.replace(",", "")] *)
Fixpoint remove_commas (s : string) : string :=
  match s with
  | EmptyString => EmptyString
  | String c r =>
      if Ascii.eqb c "," then remove_commas r else String c (remove_commas r)
  end.

(** [s.isupper()]: at least one cased character and no lower-case one. *)
Fixpoint any_char (p : ascii -> bool) (s : string) : bool :=
  match s with
  | EmptyString => false
  | String c r => p c || any_char p r
  end.

Definition isupper (s : string) : bool :=
  any_char is_upper s && negb (any_char is_lower s).

(** [any(x in s for x in xs)] and friends *)
Definition py_any {A} (p : A -> bool) (xs : list A) : bool := existsb p xs.

End PyStr.

(** ** Regular expressions used by the date patterns *)

Module Re.

Inductive regex :=
| Digit                                  (* \d *)
| Lit (c : ascii)                        (* a literal character *)
| Cat (r1 r2 : regex)                    (* r1 r2 *)
| Rep (r : regex) (lo hi : nat).         (* r{lo,hi} *)

(** [repeat_rem f lo hi s]: the suffixes left after between [lo] and [hi]
    consecutive matches of [f] at the start of [s]. *)
Fixpoint repeat_rem (f : string -> list string) (lo hi : nat) (s : string)
  : list string :=
  (if (lo =? 0)%nat then [s] else []) ++
  match hi with
  | O => []
  | S hi' => flat_map (repeat_rem f (Nat.pred lo) hi') (f s)
  end.

(** [remainders r s]: every suffix of [s] left by a match of [r] at the
    start of [s] (all the ways the backtracking matcher can go). *)
Fixpoint remainders (r : regex) (s : string) : list string :=
  match r with
  | Digit =>
      match s with
      | String c t => if PyStr.is_digit c then [t] else []
      | EmptyString => []
      end
  | Lit a =>
      match s with
      | String c t => if Ascii.eqb a c then [t] else []
      | EmptyString => []
      end
  | Cat r1 r2 => flat_map (remainders r2) (remainders r1 s)
  | Rep r lo hi => repeat_rem (remainders r) lo hi s
  end.

(** [re.match(pattern, s)] as a truth value: some match starts at 0. *)
Definition re_match (r : regex) (s : string) : bool :=
  match remainders r s with
  | [] => false
  | _ :: _ => true
  end.

End Re.

(** ** Values, series and frames *)

(** A scalar as the pipeline sees it: a missing value (NaN, None, NaT), a
    text, a number or a timestamp (nanoseconds since the epoch). *)
Inductive value :=
| NaN
| Str (s : string)
| Num (x : Z)
| Timestamp (ns : Z).

(** What the Python runtime and pandas contribute and the repository does
    not define: the rendering [str(v)] of numbers and timestamps, whether
    [float(s)] succeeds, and the per-value parser behind
    [pd.to_datetime(..., errors="coerce")] ([None] is NaT). *)
Class Builtins := {
  str_num : Z -> string;
  str_timestamp : Z -> string;
  float_parses : string -> bool;
  to_datetime_value : value -> option Z
}.

(** A column: pandas keeps a datetime64 column apart from the others; its
    entries are timestamps or NaT. Any other dtype is a list of values. *)
Inductive Series :=
| ObjectSeries (vals : list value)
| Datetime64Series (vals : list (option Z)).

Definition datetime_value (o : option Z) : value :=
  match o with
  | Some t => Timestamp t
  | None => NaN
  end.

(** The values of a column in row order. *)
Definition series_values (s : Series) : list value :=
  match s with
  | ObjectSeries vs => vs
  | Datetime64Series ts => map datetime_value ts
  end.

(** [pd.api.types.is_datetime64_any_dtype(col)] *)
Definition is_datetime64_any_dtype (s : Series) : bool :=
  match s with
  | ObjectSeries _ => false
  | Datetime64Series _ => true
  end.

(** A frame: row labels and labelled columns. Every column is as long as
    [index] in a well-formed frame. *)
Record DataFrame := {
  index : list Z;
  columns : list (string * Series)
}.

(** [len(df)] *)
Definition len (df : DataFrame) : nat := length (index df).

(** [df.empty]: no row or no column. *)
Definition empty (df : DataFrame) : bool :=
  match index df, columns df with
  | [], _ => true
  | _, [] => true
  | _, _ => false
  end.

(** The labels [pd.read_csv] and [pd.read_excel] give the rows: 0..n-1. *)
Definition range_index (n : nat) : list Z := map Z.of_nat (seq 0 n).

(** Row selections act on the labels and on every column alike. *)
Definition select_series (f : forall A, list A -> list A) (s : Series) : Series :=
  match s with
  | ObjectSeries vs => ObjectSeries (f _ vs)
  | Datetime64Series ts => Datetime64Series (f _ ts)
  end.

Definition select_rows (f : forall A, list A -> list A) (df : DataFrame)
  : DataFrame :=
  {| index := f _ (index df);
     columns := map (fun c => (fst c, select_series f (snd c))) (columns df) |}.

(** Rows kept by a boolean mask, [df[mask]]. *)
Fixpoint by_mask (mask : list bool) {A} (l : list A) : list A :=
  match mask, l with
  | b :: mask', x :: l' => if b then x :: by_mask mask' l' else by_mask mask' l'
  | _, _ => []
  end.

(** A Python slice bound, resolved against a length: a negative bound
    counts from the end, and the result is clipped to [0, n]. *)
Definition slice_bound (n : nat) (k : Z) : nat :=
  if k <? 0 then Z.to_nat (Z.max 0 (Z.of_nat n + k))
  else Nat.min (Z.to_nat k) n.

(** [l[a:b]] *)
Definition py_slice (a b : Z) {A} (l : list A) : list A :=
  let i := slice_bound (length l) a in
  let j := slice_bound (length l) b in
  take (j - i) (drop i l).

(** [l[a:]] *)
Definition py_slice_from (a : Z) {A} (l : list A) : list A :=
  drop (slice_bound (length l) a) l.

(** [df.iloc[a:b]] *)
Definition iloc (a b : Z) (df : DataFrame) : DataFrame :=
  select_rows (fun A => py_slice a b) df.

(** [df.loc[a:b]], both ends included, and [df.loc[a:]]; on an increasing
    index (every frame of this program has one: the loaders number the
    rows 0..n-1 and each stage keeps a sub-sequence with its labels) these
    are the rows whose label lies in the range. *)
Definition loc (a b : Z) (df : DataFrame) : DataFrame :=
  select_rows
    (fun A => by_mask (map (fun l => (a <=? l) && (l <=? b)) (index df))) df.

Definition loc_from (a : Z) (df : DataFrame) : DataFrame :=
  select_rows (fun A => by_mask (map (fun l => a <=? l) (index df))) df.

(** [series.items()]: the (label, value) pairs in row order. *)
Definition items (idx : list Z) (s : Series) : list (Z * value) :=
  combine idx (series_values s).

(** [mask.idxmax()] on a boolean mask with some [True]: the label of the
    first [True]. *)
Fixpoint first_true (m : list (Z * bool)) : option Z :=
  match m with
  | [] => None
  | (l, b) :: m' => if b then Some l else first_true m'
  end.

(** ** Streamlit output *)

Inductive ui_event :=
| st_warning (msg : string)
| st_error (msg : string)
| st_info (msg : string)                 (* pictographs of the texts left out *)
| st_success_processed (rows : nat) (start : Z)
    (* "Processed data: {rows} rows (started from row {start})" *)
| st_success_selected (rows : nat) (start_row end_row : Z)
    (* "Selected: {rows} rows (rows {start_row}-{end_row})" *)
| st_success_filtered (filtered original : nat)
    (* "Filtered: {filtered} rows (from {original})" *)
| st_success_converted (cols : list string)
    (* "Converted: ..." *)
| st_info_available_rows (last : Z)
    (* "Available rows: 0 to {last}" *)
| st_info_will_select (count : Z)
    (* "Will select: {count} rows" *)
| st_info_showing_first (rows : nat)
    (* "Showing first 5 rows of {rows} selected rows" *)
| st_dataframe (shown : DataFrame)
| st_text_dtype (col : string) (is_datetime : bool)
    (* "{col}: {dtype}" *)
| st_error_failed (cols : list string)
    (* "Failed: ..." *)
| st_info_available_dates (min_date max_date : option Z).
    (* "Available: {min_date} to {max_date}" *)

(** ** Region selector *)

Section RegionSelector.
Context `{Builtins}.

(** [str(value)] *)
Definition py_str (v : value) : string :=
  match v with
  | NaN => "nan"
  | Str s => s
  | Num x => str_num x
  | Timestamp t => str_timestamp t
  end.

(** [pd.isna(value)] *)
Definition isna (v : value) : bool :=
  match v with
  | NaN => true
  | _ => false
  end.

(** [value == ""] *)
Definition eq_empty (v : value) : bool :=
  match v with
  | Str s => String.eqb s ""
  | _ => false
  end.

(** [pd.isna(value) or value == "" or str(value).strip() == ""]; the
    same test, column-wise, builds [null_mask] in [apply_auto_detection]. *)
Definition is_blank (v : value) : bool :=
  isna v || eq_empty v || String.eqb (PyStr.strip (py_str v)) "".

Definition digits (lo hi : nat) : Re.regex := Re.Rep Re.Digit lo hi.

(** The three entries of [date_patterns]. *)
Definition date_patterns : list Re.regex :=
  [ Re.Cat (digits 1 2) (Re.Cat (Re.Lit "-") (Re.Cat (digits 1 2)
      (Re.Cat (Re.Lit "-") (digits 4 4))));
    Re.Cat (digits 4 4) (Re.Cat (Re.Lit "-") (Re.Cat (digits 1 2)
      (Re.Cat (Re.Lit "-") (digits 1 2))));
    Re.Cat (digits 1 2) (Re.Cat (Re.Lit "/") (Re.Cat (digits 1 2)
      (Re.Cat (Re.Lit "/") (digits 4 4)))) ].

Definition is_date_pattern (value_str : string) : bool :=
  PyStr.py_any (fun pattern => Re.re_match pattern value_str) date_patterns.

Definition is_numeric_pattern (value_str : string) : bool :=
  float_parses (PyStr.remove_commas value_str).

Definition header_indicators : list string :=
  ["DATE"; "TYPE"; "NUMBER"; "AMOUNT"; "DESCRIPTION"; "ID"].

Definition looks_like_header (value_str : string) : bool :=
  (String.length value_str <? 20)%nat &&
  (PyStr.isupper value_str ||
   PyStr.py_any (fun indicator => PyStr.contains indicator (PyStr.upper value_str))
     header_indicators).

(** The loop of [find_data_start_dynamic] over [first_col_data.items()];
    [detection_method] is the text of the select box, compared with the
    four literals in turn (any other text selects no branch). *)
Fixpoint find_data_start_dynamic (first_col_data : list (Z * value))
    (skip_words : list string) (detection_method : string) : option Z :=
  match first_col_data with
  | [] => None
  | (index, value) :: rest =>
      if is_blank value then
        find_data_start_dynamic rest skip_words detection_method
      else
        let value_str := PyStr.strip (py_str value) in
        if PyStr.py_any
             (fun skip_word => PyStr.contains skip_word (PyStr.upper value_str))
             skip_words
        then find_data_start_dynamic rest skip_words detection_method
        else if String.eqb detection_method "Date patterns" then
          if is_date_pattern value_str then Some index
          else find_data_start_dynamic rest skip_words detection_method
        else if String.eqb detection_method "Numeric patterns" then
          if is_numeric_pattern value_str then Some index
          else find_data_start_dynamic rest skip_words detection_method
        else if String.eqb detection_method "Non-empty after empty" then
          Some index
        else if String.eqb detection_method "First non-header row" then
          if negb (looks_like_header value_str) then Some index
          else find_data_start_dynamic rest skip_words detection_method
        else find_data_start_dynamic rest skip_words detection_method
  end.

Definition warning_detection_failed : string :=
  "Could not detect data start automatically. Using full dataset.".

Definition apply_auto_detection (df : DataFrame) (skip_words : list string)
    (detection_method : string) (cut_at_empty : bool)
  : DataFrame * list ui_event :=
  if empty df then (df, [])
  else
    match columns df with
    | [] => (df, [])          (* excluded by [empty df] *)
    | (first_column, column) :: _ =>
        let first_col_data := items (index df) column in
        match find_data_start_dynamic first_col_data skip_words detection_method with
        | None => (df, [st_warning warning_detection_failed])
        | Some data_start_index =>
            let df_result :=
              if cut_at_empty then
                let data_portion := py_slice_from data_start_index first_col_data in
                let null_mask := map (fun iv => (fst iv, is_blank (snd iv))) data_portion in
                match first_true null_mask with
                | Some first_null_in_data =>
                    loc data_start_index (first_null_in_data - 1) df
                | None => loc_from data_start_index df
                end
              else loc_from data_start_index df in
            (df_result, [st_success_processed (len df_result) data_start_index])
        end
    end.

(** The sidebar widgets of [manual_data_selection_sidebar]: the two
    number inputs and the preview check box. *)
Record manual_input := {
  start_row : Z;
  end_row : Z;
  show_preview : bool
}.

(** What [st.number_input(min_value, max_value)] lets through. *)
Definition number_input_allows (min_value max_value v : Z) : Prop :=
  min_value <= v <= max_value.

Definition head (n : nat) (df : DataFrame) : DataFrame :=
  select_rows (fun A => take n) df.

Definition manual_data_selection_sidebar (df : DataFrame) (ui : manual_input)
  : DataFrame * list ui_event :=
  let selected_count := end_row ui - start_row ui + 1 in
  let preview :=
    if show_preview ui then
      let preview_df := iloc (start_row ui) (end_row ui + 1) df in
      st_dataframe (head 5 preview_df) ::
      (if (5 <? len preview_df)%nat then [st_info_showing_first (len preview_df)]
       else [])
    else [] in
  let result_df := iloc (start_row ui) (end_row ui + 1) df in
  (result_df,
   ([st_info_available_rows (Z.of_nat (len df) - 1);
     st_info_will_select selected_count] ++ preview ++
    (if negb (len result_df =? len df)%nat
     then [st_success_selected (len result_df) (start_row ui) (end_row ui)]
     else []))%list).

(** The skip words as [auto_detect_with_options_sidebar] prepares them
    from the text input: split at the commas, drop the blank pieces, strip
    and upper-case the others. *)
Fixpoint split_commas_aux (acc : string) (s : string) : list string :=
  match s with
  | EmptyString => [PyStr.reverse acc]
  | String c r =>
      if Ascii.eqb c "," then PyStr.reverse acc :: split_commas_aux "" r
      else split_commas_aux (String c acc) r
  end.

Definition split_commas (s : string) : list string := split_commas_aux "" s.

Definition sidebar_skip_words (skip_words_input : string) : list string :=
  map (fun word => PyStr.upper (PyStr.strip word))
    (List.filter (fun word => negb (String.eqb (PyStr.strip word) ""))
       (split_commas skip_words_input)).

End RegionSelector.

(** ** Table loader *)

Module Loader.

(** What pandas contributes: the uploaded file, its name, and the readers.
    [read_excel_rows f n] is [pd.read_excel(f, header=None, nrows=n)], the
    first [n] rows of the sheet as rows of cells, numbered from 0;
    [read_excel f h] is [pd.read_excel(f, header=h)]. A reader that raises
    gives the text of its exception. *)
Class Readers := {
  upload : Type;
  name : upload -> string;
  read_csv : upload -> string + DataFrame;
  read_excel_rows : upload -> nat -> string + list (list value);
  read_excel : upload -> Z -> string + DataFrame
}.

(** [name.endswith(suffix)] *)
Definition endswith (s suffix : string) : bool :=
  String.prefix (PyStr.reverse suffix) (PyStr.reverse s).

(** [notnull().sum(axis=1)] of one row. *)
Definition notnull_count (row : list value) : nat :=
  length (List.filter (fun v => negb (isna v)) row).

(** [idxmax()]: the label of the first greatest entry; a later entry
    takes over only when strictly greater. *)
Fixpoint idxmax_from (best : Z * nat) (rest : list (Z * nat)) : Z :=
  match rest with
  | [] => fst best
  | (i, c) :: rest' =>
      if (snd best <? c)%nat then idxmax_from (i, c) rest'
      else idxmax_from best rest'
  end.

Definition idxmax (counts : list (Z * nat)) : string + Z :=
  match counts with
  | [] => inl "attempt to get argmax of an empty sequence"
  | first :: rest => inr (idxmax_from first rest)
  end.

Definition likely_header_row (preview : list (list value)) : string + Z :=
  idxmax (combine (range_index (length preview)) (map notnull_count preview)).

(** The pair [(df, error)] the function returns. *)
Definition read_uploaded_file_basic `{Readers} (uploaded_file : upload)
  : option DataFrame * option string :=
  let attempt : string + DataFrame :=
    if endswith (name uploaded_file) ".csv" then read_csv uploaded_file
    else
      match read_excel_rows uploaded_file 5 with
      | inl e => inl e
      | inr preview_df =>
          match likely_header_row preview_df with
          | inl e => inl e
          | inr header => read_excel uploaded_file header
          end
      end in
  match attempt with
  | inr df => (Some df, None)
  | inl e => (None, Some e)
  end.

End Loader.

(** ** Temporal converter *)

Module Converter.

(** Frames are Python objects: the converter assigns into the frame it
    is given, so the frames live in a store and are passed by reference. *)
Abbreviation ref := nat.
Abbreviation store := (gmap nat DataFrame).

(** The sidebar widgets of [convert_selected_columns_to_datetime]. *)
Record convert_input := {
  show_types : bool;
  columns_to_convert : list string;
  convert_clicked : bool
}.

(** How a call ends: it returns a frame, or [st.rerun()] stops the script
    run before the [return]. *)
Inductive outcome :=
| Returned (df : ref)
| Rerun.

(** [df[col]]: the first column with this label. *)
Fixpoint get_column (col : string) (cols : list (string * Series))
  : option Series :=
  match cols with
  | [] => None
  | (n, s) :: rest => if String.eqb n col then Some s else get_column col rest
  end.

(** [df[col] = s] for a label the frame has. *)
Fixpoint set_column (col : string) (s : Series) (cols : list (string * Series))
  : list (string * Series) :=
  match cols with
  | [] => []
  | (n, old) :: rest =>
      if String.eqb n col then (n, s) :: rest
      else (n, old) :: set_column col s rest
  end.

(** [pd.to_datetime(series, errors="coerce")] *)
Definition to_datetime `{Builtins} (s : Series) : Series :=
  match s with
  | Datetime64Series ts => Datetime64Series ts
  | ObjectSeries vs => Datetime64Series (map to_datetime_value vs)
  end.

(** The [for col in columns_to_convert] loop on the frame's columns: the
    columns after the assignments, the labels converted, and the labels
    whose [df[col]] raised. *)
Fixpoint convert_loop `{Builtins} (todo : list string)
    (cols : list (string * Series))
  : list (string * Series) * list string * list string :=
  match todo with
  | [] => (cols, [], [])
  | col :: todo' =>
      match get_column col cols with
      | Some s =>
          let '(cols', ok, failed) :=
            convert_loop todo' (set_column col (to_datetime s) cols) in
          (cols', col :: ok, failed)
      | None =>
          let '(cols', ok, failed) := convert_loop todo' cols in
          (cols', ok, col :: failed)
      end
  end.

Definition convert_selected_columns_to_datetime `{Builtins}
    (σ : store) (df : ref) (ui : convert_input)
  : store * list ui_event * outcome :=
  match σ !! df with
  | None => (σ, [], Returned df)        (* no frame there: not a call *)
  | Some frame =>
      let types :=
        if show_types ui then
          map (fun c => st_text_dtype (fst c) (is_datetime64_any_dtype (snd c)))
            (columns frame)
        else [] in
      match columns_to_convert ui with
      | [] => (σ, types, Returned df)
      | _ :: _ =>
          if convert_clicked ui then
            let '(cols', converted_successfully, conversion_errors) :=
              convert_loop (columns_to_convert ui) (columns frame) in
            let σ' := <[df := {| index := index frame; columns := cols' |}]> σ in
            (σ',
             (types ++
              (match converted_successfully with
               | [] => []
               | _ => [st_success_converted converted_successfully]
               end) ++
              (match conversion_errors with
               | [] => []
               | _ => [st_error_failed conversion_errors]
               end))%list,
             Rerun)
          else (σ, types, Returned df)
      end
  end.

End Converter.

(** ** Range filter *)

Module RangeFilter.

(** Timestamps count nanoseconds, calendar dates count days. *)
Definition second : Z := 1000000000.
Definition day : Z := 86400 * second.

(** [pd.to_datetime(date)]: the date at 00:00:00. *)
Definition to_datetime_date (d : Z) : Z := d * day.

(** [timestamp.date()] *)
Definition date_of (t : Z) : Z := t / day.

(** The sidebar widgets of [filter_by_date_range]: the column select box,
    the two date inputs and the skip check box. *)
Record filter_input := {
  date_column : string;
  start_date : Z;
  end_date : Z;
  skip_filter : bool
}.

(** [series.min()] and [series.max()], skipping NaT; NaT when all are. *)
Definition pick (choose : Z -> Z -> Z) (acc o : option Z) : option Z :=
  match acc, o with
  | Some a, Some b => Some (choose a b)
  | None, _ => o
  | _, None => acc
  end.

Definition series_min (ts : list (option Z)) : option Z :=
  fold_left (pick Z.min) ts None.

Definition series_max (ts : list (option Z)) : option Z :=
  fold_left (pick Z.max) ts None.

(** [series >= t] and [series <= t] at one row; NaT compares false. *)
Definition ge_at (t : Z) (o : option Z) : bool :=
  match o with
  | Some v => t <=? v
  | None => false
  end.

Definition le_at (t : Z) (o : option Z) : bool :=
  match o with
  | Some v => v <=? t
  | None => false
  end.

Definition datetime_cols (df : DataFrame) : list string :=
  map fst (List.filter (fun c => is_datetime64_any_dtype (snd c)) (columns df)).

Definition info_no_datetime : string := "No datetime columns found".
Definition info_skip : string := "Using all data (no date filter)".
Definition info_all_included : string := "No filtering applied - all data included".
Definition error_invalid_range : string := "Start date must be before end date".

(** The result is the frame returned, or the [KeyError] of [df[date_column]]
    for a label that is not a datetime column of the frame (the select box
    offers [datetime_cols] only). *)
Definition filter_by_date_range (df : DataFrame) (ui : filter_input)
  : (string + DataFrame) * list ui_event :=
  match datetime_cols df with
  | [] => (inr df, [st_info info_no_datetime])
  | _ :: _ =>
      match Converter.get_column (date_column ui) (columns df) with
      | Some (Datetime64Series ts) =>
          let min_date := date_of <$> series_min ts in
          let max_date := date_of <$> series_max ts in
          let shown := [st_info_available_dates min_date max_date] in
          if skip_filter ui then (inr df, (shown ++ [st_info info_skip])%list)
          else if start_date ui <=? end_date ui then
            let start_datetime := to_datetime_date (start_date ui) in
            let end_datetime := to_datetime_date (end_date ui) + day - second in
            let mask :=
              map (fun v => ge_at start_datetime v && le_at end_datetime v) ts in
            let filtered_df := select_rows (fun A => by_mask mask) df in
            let original_count := len df in
            let filtered_count := len filtered_df in
            (inr filtered_df,
             (shown ++
              (if negb (filtered_count =? original_count)%nat
               then [st_success_filtered filtered_count original_count]
               else [st_info info_all_included]))%list)
          else (inr df, (shown ++ [st_error error_invalid_range])%list)
      | _ => (inl (date_column ui), [])
      end
  end.

End RangeFilter.

(** ** The sidebar around the region selector *)

Section Sidebar.
Context `{Builtins}.

(** The widgets of [auto_detect_with_options_sidebar]: the text input of
    the skip words, the select box of the method, the check box and the
    button. *)
Record auto_detect_input := {
  skip_words_input : string;
  detection_method : string;
  cut_at_empty : bool;
  apply_clicked : bool
}.

Definition info_click_apply : string :=
  "Click 'Apply Auto-Detection' to process the data".

(** Headings written with [st.write] are left out of the events. *)
Definition auto_detect_with_options_sidebar (df : DataFrame)
    (ui : auto_detect_input) : DataFrame * list ui_event :=
  let skip_words := sidebar_skip_words (skip_words_input ui) in
  if apply_clicked ui then
    apply_auto_detection df skip_words (detection_method ui) (cut_at_empty ui)
  else (df, [st_info info_click_apply]).

End Sidebar.

(** ** Processing modes *)

Section Modes.
Context `{Builtins}.

(** The radio button of [process_data_with_user_options] and the widgets
    of the two modes behind it. *)
Record process_input := {
  processing_mode : string;
  manual_ui : manual_input;
  auto_ui : auto_detect_input
}.

(** What the function shows itself (the heading apart), and what the mode
    it calls shows. *)
Inductive mode_event :=
| st_info_original (rows cols : nat)
    (* "Original: {rows} rows x {cols} columns" *)
| st_success_complete
    (* "Using complete dataset" *)
| stage_event (e : ui_event).

Definition process_data_with_user_options (df : DataFrame) (ui : process_input)
  : DataFrame * list mode_event :=
  let shown := st_info_original (len df) (length (columns df)) in
  if String.eqb (processing_mode ui) "Use all data as-is" then
    (df, [shown; st_success_complete])
  else if String.eqb (processing_mode ui) "Manual selection" then
    let result := manual_data_selection_sidebar df (manual_ui ui) in
    (fst result, shown :: map stage_event (snd result))
  else
    let result := auto_detect_with_options_sidebar df (auto_ui ui) in
    (fst result, shown :: map stage_event (snd result)).

End Modes.

(** ** Session *)

Module Session.

(** [st.session_state], as [SessionManager] initialises it; the tables
    are references into the store of frames. *)
Record state := {
  original_data : option nat;
  processed_data : option nat;
  current_filename : option string;
  processing_history : list string;
  data_loaded : bool
}.

(** [frame.copy()]: a new object with the same content. *)
Definition copy (σ : gmap nat DataFrame) (frame : DataFrame)
  : gmap nat DataFrame * nat :=
  let r := fresh (dom σ) in (<[r := frame]> σ, r).

Definition success_reset : string := "Data reset to original state".

(** [SessionManager.reset_data]; the last component is what [st.success]
    shows. *)
Definition reset_data (σ : gmap nat DataFrame) (s : state)
  : gmap nat DataFrame * state * list string :=
  match original_data s with
  | Some original =>
      match σ !! original with
      | Some frame =>
          let '(σ', processed) := copy σ frame in
          (σ',
           {| original_data := original_data s;
              processed_data := Some processed;
              current_filename := current_filename s;
              processing_history := [];
              data_loaded := data_loaded s |},
           [success_reset])
      | None => (σ, s, [])            (* no frame there: not a state *)
      end
  | None => (σ, s, [])
  end.

End Session.

(** ** A runtime to evaluate examples with *)

Module Sample.

(** Decimal rendering of an integer, as [str] gives it for an [int]. *)
Definition str_int (x : Z) : string :=
  NilEmpty.string_of_int (Z.to_int x).

(** Only what the examples below need: texts of digits parse as floats,
    and texts of the form YYYY-MM-DD are not parsed at all (NaT). *)
#[export] Instance builtins : Builtins := {|
  str_num := str_int;
  str_timestamp := fun t => String.append "ts:" (str_int t);
  float_parses := fun s =>
    negb (String.eqb s "") && negb (PyStr.any_char (fun c => negb (PyStr.is_digit c)) s);
  to_datetime_value := fun v =>
    match v with
    | Timestamp t => Some t
    | Num x => Some x
    | _ => None
    end
|}.

End Sample.

(** * Specification

    The notions the specification states its properties with, written
    from its words, and sample tables to evaluate the embedding on. *)

Section Specification.
Context `{Builtins}.

(** The four detection methods and the select-box text of each. *)
Inductive DetectionMethod :=
| DatePattern
| NumericPattern
| FirstNonBlankAfterBlank
| FirstNonHeaderLike.

Definition method_label (m : DetectionMethod) : string :=
  match m with
  | DatePattern => "Date patterns"
  | NumericPattern => "Numeric patterns"
  | FirstNonBlankAfterBlank => "Non-empty after empty"
  | FirstNonHeaderLike => "First non-header row"
  end.

(** The predicate of a method over a trimmed text. *)
Definition method_predicate (m : DetectionMethod) (text : string) : bool :=
  match m with
  | DatePattern => is_date_pattern text
  | NumericPattern => is_numeric_pattern text
  | FirstNonBlankAfterBlank => true
  | FirstNonHeaderLike => negb (looks_like_header text)
  end.

(** Case-insensitive substring comparison: both sides case-folded. *)
Definition contains_ci (word text : string) : bool :=
  PyStr.contains (PyStr.upper word) (PyStr.upper text).

(** A row qualifies as data start: its first-column value is not blank,
    its trimmed text contains no skip word, and the method's predicate
    holds of the trimmed text. *)
Definition qualifies (skip_words : list string) (m : DetectionMethod)
    (v : value) : bool :=
  negb (is_blank v) &&
  negb (existsb (fun w => contains_ci w (PyStr.strip (py_str v))) skip_words) &&
  method_predicate m (PyStr.strip (py_str v)).

(** [r] is the label of the earliest qualifying row of [rows], or [None]
    when no row qualifies. *)
Definition earliest_qualifying (skip_words : list string) (m : DetectionMethod)
    (rows : list (Z * value)) (r : option Z) : Prop :=
  match r with
  | Some label =>
      exists (i : nat) (v : value),
        rows !! i = Some (label, v) /\
        qualifies skip_words m v = true /\
        forall (j : nat) (row : Z * value),
          (j < i)%nat -> rows !! j = Some row ->
          qualifies skip_words m (snd row) = false
  | None =>
      forall (i : nat) (row : Z * value),
        rows !! i = Some row -> qualifies skip_words m (snd row) = false
  end.

(** The skip words are in upper case, as [sidebar_skip_words] makes them. *)
Definition upper_cased (skip_words : list string) : Prop :=
  Forall (fun w => PyStr.upper w = w) skip_words.

(** The (label, value) rows of the first column of a frame. *)
Definition first_column_rows (df : DataFrame) : list (Z * value) :=
  match columns df with
  | [] => []
  | (_, column) :: _ => items (index df) column
  end.

(** The rows at positions [s..e] of every column, labels included. *)
Definition rows_between (s e : nat) (df : DataFrame) : DataFrame :=
  select_rows (fun A l => take (e + 1 - s) (drop s l)) df.

(** Position of the first blank value at or after position [s]. *)
Fixpoint first_blank_from (s : nat) (vs : list value) : option nat :=
  match s, vs with
  | _, [] => None
  | O, v :: vs' =>
      if is_blank v then Some O else S <$> first_blank_from O vs'
  | S s', _ :: vs' => S <$> first_blank_from s' vs'
  end.

(** The data-end position for data starting at position [s]: the row
    before the first blank at or after [s] when cutting at the blank (the
    last row if there is none), the last row otherwise. *)
Definition data_end (cut_at_blank : bool) (s : nat) (vs : list value) : nat :=
  if cut_at_blank then
    match first_blank_from s vs with
    | Some p => p - 1
    | None => length vs - 1
    end
  else length vs - 1.

(** The region of a frame whose data starts at position [s]. *)
Definition region (cut_at_blank : bool) (s : nat) (df : DataFrame) : DataFrame :=
  rows_between s (data_end cut_at_blank s (snd <$> first_column_rows df)) df.

End Specification.

(** Every character of [s] satisfies [p]. *)
Fixpoint all_char (p : ascii -> bool) (s : string) : bool :=
  match s with
  | EmptyString => true
  | String c r => p c && all_char p r
  end.

(** A number of [lo] to [hi] digits. *)
Definition number (lo hi : nat) (d : string) : Prop :=
  (lo <= String.length d <= hi)%nat /\ all_char PyStr.is_digit d = true.

(** The literal forms D-M-YYYY and D/M/YYYY at the start of [s]. *)
Definition begins_with_dmy (sep : ascii) (s : string) : Prop :=
  exists d m y rest : string,
    s = String.append d (String sep (String.append m
          (String sep (String.append y rest)))) /\
    number 1 2 d /\ number 1 2 m /\ number 4 4 y.

(** The literal form YYYY-M-D at the start of [s]. *)
Definition begins_with_ymd (sep : ascii) (s : string) : Prop :=
  exists y m d rest : string,
    s = String.append y (String sep (String.append m
          (String sep (String.append d rest)))) /\
    number 4 4 y /\ number 1 2 m /\ number 1 2 d.

Definition begins_with_date (s : string) : Prop :=
  begins_with_dmy "-" s \/ begins_with_ymd "-" s \/ begins_with_dmy "/" s.

(** The number of cells of a row that hold a value (are not missing). *)
Fixpoint non_null_cells (row : list value) : nat :=
  match row with
  | [] => 0
  | NaN :: rest => non_null_cells rest
  | _ :: rest => S (non_null_cells rest)
  end.

(** [h] is the first row of [preview] with the greatest number of
    non-null cells. *)
Definition first_fullest_row (preview : list (list value)) (h : nat) : Prop :=
  exists row,
    preview !! h = Some row /\
    (forall (i : nat) (other : list value),
       preview !! i = Some other ->
       (non_null_cells other <= non_null_cells row)%nat) /\
    (forall (i : nat) (other : list value),
       (i < h)%nat -> preview !! i = Some other ->
       (non_null_cells other < non_null_cells row)%nat).

(** The inclusive bounds of a date range: the start date at 00:00:00, and
    the end date plus one day minus one time unit (one second). *)
Definition lower_bound (start : Z) : Z := start * RangeFilter.day.
Definition upper_bound (finish : Z) : Z := (finish + 1) * RangeFilter.day - RangeFilter.second.

(** A value lies in the range; a missing value does not. *)
Definition in_range (lower upper : Z) (o : option Z) : bool :=
  match o with
  | Some v => (lower <=? v) && (v <=? upper)
  | None => false
  end.

(** The rows of [df] whose value in [ts] lies between the bounds. *)
Definition rows_in_range (lower upper : Z) (ts : list (option Z))
    (df : DataFrame) : DataFrame :=
  select_rows (fun A => by_mask (map (in_range lower upper) ts)) df.

(** ** Sample inputs *)

Export Sample.

(** A sample reader: an upload is a file name with the rows of the sheet;
    the labels of the frame are the texts of the header row. *)
Module SampleReaders.

Definition cell_label (j : nat) (v : value) : string :=
  match v with
  | Str s => s
  | _ => "Unnamed"
  end.

Definition frame_of_rows (header : list value) (body : list (list value))
  : DataFrame :=
  {| index := range_index (length body);
     columns :=
       imap (fun j v => (cell_label j v, ObjectSeries (map (fun row => nth j row NaN) body)))
         header |}.

Definition read_with_header (rows : list (list value)) (h : Z)
  : string + DataFrame :=
  if h <? 0 then inl "negative header"
  else match drop (Z.to_nat h) rows with
       | [] => inl "header out of range"
       | header :: body => inr (frame_of_rows header body)
       end.

#[export] Instance readers : Loader.Readers := {|
  Loader.upload := string * list (list value);
  Loader.name := fst;
  Loader.read_csv := fun f => read_with_header (snd f) 0;
  Loader.read_excel_rows := fun f n => inr (take n (snd f));
  Loader.read_excel := fun f h => read_with_header (snd f) h
|}.

Definition bank_sheet : @Loader.upload readers :=
  ("bank.xlsx",
   [ [Str "Statement"; NaN; NaN];
     [Str "Date"; Str "Amount"; Str "Type"];
     [Str "01-03-2024"; Num 120; Str "debit"];
     [Str "02-03-2024"; Num 75; Str "credit"] ]).

End SampleReaders.

Definition titles_only : DataFrame :=
  {| index := range_index 2;
     columns := [("Unnamed: 0", ObjectSeries [Str "Statement Period"; NaN]);
                 ("Unnamed: 1", ObjectSeries [NaN; Str "Total"])] |}.

Definition no_rows : DataFrame :=
  {| index := []; columns := [("Date", ObjectSeries [])] |}.

(** A first column with its labels: a title, then a year. *)
Definition title_rows : list (Z * value) :=
  [(0, Str "Statement Period"); (1, Str "2024")].

Definition one_title : DataFrame :=
  {| index := range_index 1;
     columns := [("Unnamed: 0", ObjectSeries [Str "Statement Period"])] |}.


(** The example of the specification, on a freshly loaded table. *)
Definition statement : DataFrame :=
  {| index := range_index 5;
     columns :=
       [("Unnamed: 0",
         ObjectSeries [Str "Statement Period"; Str ""; Str "01-03-2024";
                       Str "02-03-2024"; Str ""]);
        ("Unnamed: 1",
         ObjectSeries [NaN; NaN; Num 120; Num 75; Num 195])] |}.

(** A table as manual selection from row 2 leaves it in the session: the
    rows keep the labels 2..5 they had in the loaded table. *)
Definition relabelled : DataFrame :=
  {| index := [2; 3; 4; 5];
     columns :=
       [("Date", ObjectSeries [Str "01-03-2024"; Str ""; Str "Total"; Str "195"])] |}.

(** Five days of January 2024 (day 19723 is 2024-01-01), at midnight. *)
Definition january : DataFrame :=
  {| index := range_index 5;
     columns :=
       [("Date",
         Datetime64Series
           (map (fun d => Some (RangeFilter.to_datetime_date d))
              [19723; 19724; 19725; 19726; 19727]));
        ("Amount", ObjectSeries [Num 10; Num 20; Num 30; Num 40; Num 50])] |}.

Definition second_to_third : RangeFilter.filter_input :=
  {| RangeFilter.date_column := "Date";
     RangeFilter.start_date := 19724;
     RangeFilter.end_date := 19725;
     RangeFilter.skip_filter := false |}.

Definition third_to_second : RangeFilter.filter_input :=
  {| RangeFilter.date_column := "Date";
     RangeFilter.start_date := 19725;
     RangeFilter.end_date := 19724;
     RangeFilter.skip_filter := false |}.

(** Two epoch readings and a text column, held in the session under
    reference 0. *)
Definition readings : DataFrame :=
  {| index := range_index 2;
     columns := [("When", ObjectSeries [Num 0; Num 86400000000000]);
                 ("What", ObjectSeries [Str "opening"; Str "closing"])] |}.

Definition convert_when : Converter.convert_input :=
  {| Converter.show_types := false;
     Converter.columns_to_convert := ["When"];
     Converter.convert_clicked := true |}.

(** ** Notions for the further properties *)

(** A rectangular frame: every column has one value per row label. *)
Definition well_formed (df : DataFrame) : Prop :=
  Forall (fun c => length (series_values (snd c)) = len df) (columns df).

(** [r] is made of rows of [df], whole and in their order: the rows a
    boolean mask keeps. *)
Definition rows_of (r df : DataFrame) : Prop :=
  exists mask : list bool, r = select_rows (fun A => by_mask mask) df.

(** A value is present (not NaT). *)
Definition present (o : option Z) : bool :=
  match o with
  | Some _ => true
  | None => false
  end.

(** The words the user configured: the pieces of the text input between
    the commas, stripped, the blank ones left out. *)
Definition configured_words (skip_words_input : string) : list string :=
  List.filter (fun w => negb (String.eqb w ""))
    (map PyStr.strip (split_commas skip_words_input)).


(** The tests of the loop on one value, with the skip words and the
    method text as they are given. *)
Definition passes_loop_tests `{Builtins} (skip_words : list string)
    (detection_method : string) (v : value) : Prop :=
  is_blank v = false /\
  (forall w, In w skip_words ->
     PyStr.contains w (PyStr.upper (PyStr.strip (py_str v))) = false) /\
  (detection_method = "Date patterns" ->
     is_date_pattern (PyStr.strip (py_str v)) = true) /\
  (detection_method = "Numeric patterns" ->
     is_numeric_pattern (PyStr.strip (py_str v)) = true) /\
  (detection_method = "First non-header row" ->
     looks_like_header (PyStr.strip (py_str v)) = false).

(** A selection whose result length depends on the length of the list
    alone. *)
Definition uniform (f : forall A, list A -> list A) : Prop :=
  forall A B (l : list A) (l' : list B),
    length l = length l' -> length (f A l) = length (f B l').

(** The conversion takes place: something is chosen and the button is
    clicked. *)
Definition converting (ui : Converter.convert_input) : bool :=
  match Converter.columns_to_convert ui with
  | [] => false
  | _ :: _ => Converter.convert_clicked ui
  end.

(** The table the caller's reference holds after the call. *)
Definition converted `{Builtins} (σ : gmap nat DataFrame) (df : nat)
    (ui : Converter.convert_input) : option DataFrame :=
  fst (fst (Converter.convert_selected_columns_to_datetime σ df ui)) !! df.

(** ** Further sample inputs *)

(** A sheet without rows and a sheet whose first row is the header. *)
Definition empty_sheet : @Loader.upload SampleReaders.readers :=
  ("empty.xlsx", []).

Definition ledger_sheet : @Loader.upload SampleReaders.readers :=
  ("ledger.xlsx",
   [ [Str "Date"; Str "Amount"];
     [Str "01-03-2024"; Num 120];
     [Str "02-03-2024"; NaN] ]).

(** Three rows, the second without a date, the last at 23:59:59. *)
Definition gaps : DataFrame :=
  {| index := range_index 3;
     columns :=
       [("Date",
         Datetime64Series
           [Some (19723 * RangeFilter.day); None;
            Some (19725 * RangeFilter.day + 86399 * RangeFilter.second)]);
        ("Amount", ObjectSeries [Num 10; Num 20; Num 30])] |}.

Definition first_to_last : RangeFilter.filter_input :=
  {| RangeFilter.date_column := "Date";
     RangeFilter.start_date := 19723;
     RangeFilter.end_date := 19725;
     RangeFilter.skip_filter := false |}.

(** A session holding [readings] as the original table. *)
Definition loaded : Session.state :=
  {| Session.original_data := Some 0%nat;
     Session.processed_data := Some 0%nat;
     Session.current_filename := Some "readings.csv";
     Session.processing_history := ["converted"];
     Session.data_loaded := true |}.

Definition convert_missing : Converter.convert_input :=
  {| Converter.show_types := false;
     Converter.columns_to_convert := ["Date"];
     Converter.convert_clicked := true |}.

Definition manual_two_to_three : process_input :=
  {| processing_mode := "Manual selection";
     manual_ui := {| start_row := 2; end_row := 3; show_preview := false |};
     auto_ui := {| skip_words_input := ""; detection_method := "Date patterns";
                   cut_at_empty := true; apply_clicked := false |} |}.

(** * Properties *)

(** ** Auto-detected data start *)

Section DataStart.
Context `{Builtins}.

Lemma upper_char_idem (c : ascii) :
  PyStr.upper_char (PyStr.upper_char c) = PyStr.upper_char c.
Proof. destruct c as [[] [] [] [] [] [] [] []]; reflexivity. Qed.

Lemma upper_idem (s : string) : PyStr.upper (PyStr.upper s) = PyStr.upper s.
Proof.
  induction s as [|c s IH]; simpl; [reflexivity|].
  now rewrite upper_char_idem, IH.
Qed.

Lemma sidebar_skip_words_upper_cased (input : string) :
  upper_cased (sidebar_skip_words input).
Proof.
  unfold upper_cased, sidebar_skip_words.
  apply Forall_forall. intros w Hw.
  apply list_elem_of_In, in_map_iff in Hw.
  destruct Hw as [x [<- _]]. apply upper_idem.
Qed.

(** On upper-case skip words the test of the loop is the
    case-insensitive one. *)
Lemma skip_test_upper_cased (skip_words : list string) (text : string) :
  upper_cased skip_words ->
  PyStr.py_any (fun w => PyStr.contains w (PyStr.upper text)) skip_words
  = existsb (fun w => contains_ci w text) skip_words.
Proof.
  unfold PyStr.py_any, upper_cased. induction 1 as [|w ws Hw _ IH]; simpl.
  - reflexivity.
  - unfold contains_ci at 1. now rewrite Hw, IH.
Qed.

(** One turn of the loop: the row is returned when it qualifies, and the
    search goes on otherwise. *)
Lemma find_data_start_dynamic_cons (skip_words : list string)
    (m : DetectionMethod) (label : Z) (v : value) (rest : list (Z * value)) :
  upper_cased skip_words ->
  find_data_start_dynamic ((label, v) :: rest) skip_words (method_label m)
  = if qualifies skip_words m v then Some label
    else find_data_start_dynamic rest skip_words (method_label m).
Proof.
  intros Hup. unfold qualifies. simpl.
  destruct (is_blank v); simpl; [reflexivity|].
  rewrite (skip_test_upper_cased _ _ Hup).
  destruct (existsb _ skip_words); simpl; [reflexivity|].
  destruct m; reflexivity.
Qed.

Lemma find_data_start_dynamic_earliest (rows : list (Z * value))
    (skip_words : list string) (m : DetectionMethod) :
  upper_cased skip_words ->
  earliest_qualifying skip_words m rows
    (find_data_start_dynamic rows skip_words (method_label m)).
Proof.
  intros Hup. induction rows as [|[label v] rest IH].
  - simpl. intros i row Hi. destruct i; discriminate.
  - rewrite find_data_start_dynamic_cons by assumption.
    destruct (qualifies skip_words m v) eqn:Hq.
    + exists 0%nat, v. repeat split; [assumption|]. intros j row Hj. lia.
    + destruct (find_data_start_dynamic rest skip_words (method_label m))
        as [found|]; simpl in *.
      * destruct IH as (i & w & Hi & Hw & Hbefore).
        exists (S i), w. repeat split; try assumption.
        intros [|j] row Hj Hrow; simpl in Hrow.
        -- injection Hrow as <-. exact Hq.
        -- apply (Hbefore j); [lia|assumption].
      * intros [|i] row Hrow; simpl in Hrow.
        -- injection Hrow as <-. exact Hq.
        -- apply (IH i). assumption.
Qed.

End DataStart.

(** C1, as the code has it. For every first column, detection method and
    list of skip words in upper case (the sidebar upper-cases the words
    before the call; the loop upper-cases the row text only), the value of
    [find_data_start_dynamic] is the label of the earliest row whose value
    is not missing, empty or whitespace-only, whose trimmed text contains
    no skip word under case-insensitive comparison, and which satisfies the
    predicate of the method; the row returned contains no skip word; and
    the value is [None] exactly when no row qualifies. *)
Theorem data_start_is_earliest_qualifying_row `{Builtins}
    (rows : list (Z * value)) (skip_words : list string) (m : DetectionMethod) :
  upper_cased skip_words ->
  let found := find_data_start_dynamic rows skip_words (method_label m) in
  earliest_qualifying skip_words m rows found /\
  (forall label, found = Some label ->
     exists (i : nat) (v : value),
       rows !! i = Some (label, v) /\
       forall w, In w skip_words ->
         contains_ci w (PyStr.strip (py_str v)) = false) /\
  (found = None <->
     forall (i : nat) (row : Z * value),
       rows !! i = Some row -> qualifies skip_words m (snd row) = false).
Proof.
  intros Hup found.
  pose proof (find_data_start_dynamic_earliest rows skip_words m Hup) as Hspec.
  fold found in Hspec. split; [exact Hspec|]. split.
  - intros label Hfound. rewrite Hfound in Hspec.
    destruct Hspec as (i & v & Hi & Hq & _). exists i, v. split; [exact Hi|].
    intros w Hw. unfold qualifies in Hq.
    apply andb_prop in Hq as [Hq _]. apply andb_prop in Hq as [_ Hq].
    apply negb_true_iff in Hq.
    destruct (contains_ci w (PyStr.strip (py_str v))) eqn:Hc; [|reflexivity].
    assert (existsb (fun w => contains_ci w (PyStr.strip (py_str v))) skip_words
            = true) as Hex by (apply existsb_exists; eauto).
    congruence.
  - split.
    + intros Hnone. rewrite Hnone in Hspec. exact Hspec.
    + intros Hall. destruct found as [label|] eqn:Hfound; [|reflexivity].
      destruct Hspec as (i & v & Hi & Hq & _).
      specialize (Hall i (label, v) Hi). simpl in Hall. congruence.
Qed.

Lemma data_start_is_earliest_qualifying_row_witness :
  upper_cased ["STATEMENT"] /\
  earliest_qualifying ["STATEMENT"] DatePattern
    [(0, Str "Statement Period"); (1, Str ""); (2, Str "01-03-2024")]
    (Some 2).
Proof.
  split.
  - repeat constructor.
  - apply (data_start_is_earliest_qualifying_row
             [(0, Str "Statement Period"); (1, Str ""); (2, Str "01-03-2024")]
             ["STATEMENT"] DatePattern).
    repeat constructor.
Defined.

(** C1 fails as stated: given the skip word in lower case, the loop
    returns row 0, whose text contains the word case-insensitively. *)
Lemma lower_case_skip_word_is_not_skipped :
  find_data_start_dynamic title_rows ["statement"]
    (method_label FirstNonBlankAfterBlank) = Some 0 /\
  contains_ci "statement" (PyStr.strip (py_str (Str "Statement Period"))) = true /\
  ~ earliest_qualifying ["statement"] FirstNonBlankAfterBlank title_rows
      (find_data_start_dynamic title_rows ["statement"]
         (method_label FirstNonBlankAfterBlank)).
Proof.
  split; [reflexivity|]. split; [reflexivity|].
  change (find_data_start_dynamic _ _ _) with (Some 0).
  intros (i & v & Hi & Hq & _).
  destruct i as [|[|i]]; simpl in Hi; try discriminate.
  injection Hi as <-. vm_compute in Hq. discriminate.
Qed.

(** ** Auto-detected region *)

Section Region.
Context `{Builtins}.

Lemma apply_auto_detection_not_found (df : DataFrame)
    (skip_words : list string) (detection_method : string) (cut : bool) :
  find_data_start_dynamic (first_column_rows df) skip_words detection_method
  = None ->
  apply_auto_detection df skip_words detection_method cut
  = (df, if empty df then [] else [st_warning warning_detection_failed]).
Proof.
  unfold apply_auto_detection, first_column_rows, empty.
  destruct (index df) as [|label labels],
    (columns df) as [|[first_column column] rest]; try reflexivity.
  intros Hnone. rewrite Hnone. reflexivity.
Qed.

End Region.

(** C5, as the code has it. For every table, method and list of
    upper-case skip words on which no row of the first column satisfies
    the blank-skip, skip-word and predicate conditions, auto-detection
    returns the table it was given, unchanged; it signals the failure
    with a warning when the table has a row and a column, and stays silent
    on an empty table. No error is raised. *)
Theorem detection_failure_is_soft `{Builtins} (df : DataFrame)
    (skip_words : list string) (m : DetectionMethod) (cut_at_empty : bool) :
  upper_cased skip_words ->
  (forall (i : nat) (row : Z * value),
     first_column_rows df !! i = Some row ->
     qualifies skip_words m (snd row) = false) ->
  apply_auto_detection df skip_words (method_label m) cut_at_empty
  = (df, if empty df then [] else [st_warning warning_detection_failed]).
Proof.
  intros Hup Hnone. apply apply_auto_detection_not_found.
  pose proof (find_data_start_dynamic_earliest (first_column_rows df)
                skip_words m Hup) as Hspec.
  destruct (find_data_start_dynamic _ _ _) as [label|]; [|reflexivity].
  destruct Hspec as (i & v & Hi & Hq & _).
  specialize (Hnone i (label, v) Hi). simpl in Hnone. congruence.
Qed.

Lemma detection_failure_is_soft_witness :
  upper_cased ["STATEMENT"] /\
  apply_auto_detection titles_only ["STATEMENT"] (method_label NumericPattern) true
  = (titles_only, [st_warning warning_detection_failed]).
Proof.
  split.
  - repeat constructor.
  - apply (detection_failure_is_soft titles_only ["STATEMENT"] NumericPattern true).
    + repeat constructor.
    + intros [|[|i]] row Hrow; simpl in Hrow; try discriminate;
        injection Hrow as <-; reflexivity.
Defined.

(** C5 fails as stated, in two ways. On a table without rows no row
    qualifies, and the table comes back without the warning. And with the
    skip word in lower case no row of [one_title] qualifies (its only row
    contains the word), yet the loop does not skip the row: it is returned
    as the data, with the success message. *)
Lemma detection_failure_without_warning :
  ((forall (i : nat) (row : Z * value),
      first_column_rows no_rows !! i = Some row ->
      qualifies [] DatePattern (snd row) = false) /\
   apply_auto_detection no_rows [] (method_label DatePattern) true
   = (no_rows, []) /\
   apply_auto_detection no_rows [] (method_label DatePattern) true
   <> (no_rows, [st_warning warning_detection_failed])) /\
  ((forall (i : nat) (row : Z * value),
      first_column_rows one_title !! i = Some row ->
      qualifies ["statement"] FirstNonBlankAfterBlank (snd row) = false) /\
   apply_auto_detection one_title ["statement"]
     (method_label FirstNonBlankAfterBlank) true
   = (one_title, [st_success_processed 1 0]) /\
   apply_auto_detection one_title ["statement"]
     (method_label FirstNonBlankAfterBlank) true
   <> (one_title, [st_warning warning_detection_failed])).
Proof.
  split.
  - split; [intros i row Hrow; destruct i; discriminate|].
    split; [reflexivity|]. discriminate.
  - split.
    + intros [|i] row Hrow; simpl in Hrow; [|discriminate].
      injection Hrow as <-. reflexivity.
    + split; [reflexivity|]. discriminate.
Qed.

(** ** Manual region *)

Section Manual.

Lemma select_rows_ext (f g : forall A, list A -> list A) (df : DataFrame) :
  (forall A (l : list A), f A l = g A l) ->
  select_rows f df = select_rows g df.
Proof.
  intros Hfg. unfold select_rows. f_equal; [apply Hfg|].
  apply map_ext. intros [label column]. simpl. f_equal.
  destruct column; simpl; f_equal; apply Hfg.
Qed.



End Manual.




(** ** Auto-detected region: end of the data and slice *)

Section LoadedTable.
Context `{Builtins}.

Lemma find_data_start_dynamic_some (rows : list (Z * value))
    (skip_words : list string) (detection_method : string) (label : Z) :
  find_data_start_dynamic rows skip_words detection_method = Some label ->
  exists (i : nat) (v : value), rows !! i = Some (label, v) /\ is_blank v = false.
Proof.
  induction rows as [|[l v] rows IH]; simpl; [discriminate|].
  intros Hfound.
  assert (Some l = Some label \/
          find_data_start_dynamic rows skip_words detection_method = Some label)
    as Hcases.
  { repeat match type of Hfound with
           | (if ?b then _ else _) = _ => destruct b
           end; auto. }
  destruct (is_blank v) eqn:Hblank.
  - destruct (IH Hfound) as (i & w & Hi & Hw). exists (S i), w. auto.
  - destruct Hcases as [[= ->]|Hrest].
    + exists 0%nat, v. auto.
    + destruct (IH Hrest) as (i & w & Hi & Hw). exists (S i), w. auto.
Qed.

Lemma lookup_combine_range {A} (k : nat) (vs : list A) (i : nat) (label : Z) (v : A) :
  combine (map Z.of_nat (seq k (length vs))) vs !! i = Some (label, v) ->
  label = Z.of_nat (k + i) /\ vs !! i = Some v.
Proof.
  revert k i. induction vs as [|x vs IH]; intros k i; simpl.
  - destruct i; discriminate.
  - destruct i as [|i]; simpl.
    + intros [= <- <-]. split; [f_equal; lia|reflexivity].
    + intros Hi. apply IH in Hi as [-> Hv]. split; [f_equal; lia|exact Hv].
Qed.

Lemma first_true_null_mask (k s : nat) (vs : list value) :
  first_true
    (map (fun iv => (fst iv, is_blank (snd iv)))
       (drop s (combine (map Z.of_nat (seq k (length vs))) vs)))
  = (fun p => Z.of_nat (k + p)) <$> first_blank_from s vs.
Proof.
  revert k s. induction vs as [|v vs IH]; intros k s.
  - destruct s; reflexivity.
  - destruct s as [|s]; simpl.
    + destruct (is_blank v).
      * simpl. do 2 f_equal. lia.
      * specialize (IH (S k) 0%nat). rewrite drop_0 in IH. rewrite IH.
        destruct (first_blank_from 0 vs); simpl; [|reflexivity].
        do 2 f_equal. lia.
    + rewrite IH. destruct (first_blank_from s vs); simpl; [|reflexivity].
      do 2 f_equal. lia.
Qed.

Lemma first_blank_from_bounds (s p : nat) (vs : list value) :
  first_blank_from s vs = Some p ->
  (s <= p < length vs)%nat /\ exists v, vs !! p = Some v /\ is_blank v = true.
Proof.
  revert s p. induction vs as [|v vs IH]; intros s p.
  - destruct s; discriminate.
  - destruct s as [|s]; simpl.
    + destruct (is_blank v) eqn:Hv.
      * intros [= <-]. split; [lia|]. exists v. auto.
      * destruct (first_blank_from 0 vs) as [q|] eqn:Hq; [|discriminate].
        intros [= <-]. destruct (IH _ _ Hq) as [Hb Hex]. split; [lia|exact Hex].
    + destruct (first_blank_from s vs) as [q|] eqn:Hq; [|discriminate].
      intros [= <-]. destruct (IH _ _ Hq) as [Hb Hex]. split; [lia|exact Hex].
Qed.

Lemma by_mask_repeat_false {A} (k : nat) (mask : list bool) (l : list A) :
  by_mask (repeat false k ++ mask) l = by_mask mask (drop k l).
Proof.
  revert l. induction k as [|k IH]; intros l; simpl; [now rewrite drop_0|].
  destruct l as [|x l]; simpl; [now destruct mask|apply IH].
Qed.

Lemma by_mask_repeat_true {A} (k : nat) (mask : list bool) (l : list A) :
  by_mask (repeat true k ++ mask) l = (take k l ++ by_mask mask (drop k l))%list.
Proof.
  revert l. induction k as [|k IH]; intros l; simpl; [now rewrite drop_0|].
  destruct l as [|x l]; simpl; [now destruct mask|now rewrite IH].
Qed.

Lemma map_range_constant (f : Z -> bool) (c : bool) (a k : nat) :
  (forall i : nat, (a <= i < a + k)%nat -> f (Z.of_nat i) = c) ->
  map f (map Z.of_nat (seq a k)) = repeat c k.
Proof.
  revert a. induction k as [|k IH]; intros a Hc; simpl; [reflexivity|].
  rewrite Hc by lia. f_equal. apply IH. intros i Hi. apply Hc. lia.
Qed.

(** On the labels 0..n-1, [.loc[s:e]] is the positional slice. *)
Lemma loc_mask_range_index {A} (n s e : nat) (l : list A) :
  (s <= e + 1 <= n)%nat ->
  by_mask (map (fun label => (Z.of_nat s <=? label) && (label <=? Z.of_nat e))
             (range_index n)) l
  = take (e + 1 - s) (drop s l).
Proof.
  intros Hse. unfold range_index.
  replace n with (s + ((e + 1 - s) + (n - (e + 1))))%nat by lia.
  rewrite !seq_app, !map_app.
  rewrite (map_range_constant _ false), (map_range_constant _ true),
    (map_range_constant _ false).
  - rewrite by_mask_repeat_false, by_mask_repeat_true.
    rewrite <- (app_nil_r (repeat false _)), by_mask_repeat_false.
    simpl. now rewrite app_nil_r.
  - intros i Hi. apply andb_false_iff. right. apply Z.leb_gt. lia.
  - intros i Hi. apply andb_true_iff. rewrite !Z.leb_le. lia.
  - intros i Hi. apply andb_false_iff. left. apply Z.leb_gt. lia.
Qed.

Lemma loc_from_mask_range_index {A} (n s : nat) (l : list A) :
  (s <= n)%nat ->
  by_mask (map (fun label => Z.of_nat s <=? label) (range_index n)) l
  = take (n - s) (drop s l).
Proof.
  intros Hs. unfold range_index.
  replace (seq 0 n) with (seq 0 s ++ seq (0 + s) (n - s))%list
    by (rewrite <- seq_app; f_equal; lia).
  rewrite !map_app.
  rewrite (map_range_constant _ false), (map_range_constant _ true).
  - rewrite by_mask_repeat_false.
    rewrite <- (app_nil_r (repeat true _)), by_mask_repeat_true.
    simpl. now rewrite app_nil_r.
  - intros i Hi. apply Z.leb_le. lia.
  - intros i Hi. apply Z.leb_gt. lia.
Qed.

Lemma snd_combine_range (n : nat) (vs : list value) :
  n = length vs -> snd <$> combine (range_index n) vs = vs.
Proof.
  intros ->. unfold range_index. generalize 0%nat.
  induction vs as [|v vs IH]; intros k; simpl; [reflexivity|].
  f_equal. apply IH.
Qed.

(** On a table as the loaders give it (rows labelled 0..n-1), the result
    of auto-detection is the region of the specification: from the data
    start to the row before the first blank at or after it, or to the last
    row. *)
Lemma auto_detection_region_on_loaded_table (df : DataFrame)
    (skip_words : list string) (detection_method : string) (cut_at_empty : bool)
    (first_column : string) (column : Series) (others : list (string * Series))
    (label : Z) :
  columns df = (first_column, column) :: others ->
  index df = range_index (length (series_values column)) ->
  find_data_start_dynamic (first_column_rows df) skip_words detection_method
  = Some label ->
  exists s : nat,
    label = Z.of_nat s /\ (s < len df)%nat /\
    apply_auto_detection df skip_words detection_method cut_at_empty
    = (region cut_at_empty s df,
       [st_success_processed (len (region cut_at_empty s df)) label]).
Proof.
  intros Hcols Hidx Hfound.
  set (vs := series_values column) in *. set (n := length vs) in *.
  assert (first_column_rows df = combine (range_index n) vs) as Hrows.
  { unfold first_column_rows, items. now rewrite Hcols, Hidx. }
  destruct (find_data_start_dynamic_some _ _ _ _ Hfound) as (s & v & Hs & Hv).
  rewrite Hrows in Hs. unfold range_index in Hs.
  apply lookup_combine_range in Hs as [-> Hsv].
  simpl. assert (s < n)%nat as Hsn by (apply lookup_lt_Some in Hsv; exact Hsv).
  assert (len df = n) as Hlen.
  { unfold len. rewrite Hidx. unfold range_index. now rewrite length_map, length_seq. }
  exists s. split; [reflexivity|]. split; [lia|].
  assert (fst (apply_auto_detection df skip_words detection_method cut_at_empty)
          = region cut_at_empty s df /\
          snd (apply_auto_detection df skip_words detection_method cut_at_empty)
          = [st_success_processed
               (len (fst (apply_auto_detection df skip_words detection_method
                            cut_at_empty)))
               (Z.of_nat s)]) as [Hfst Hsnd].
  2:{ rewrite Hfst in Hsnd. rewrite <- Hfst at 1. rewrite <- Hsnd.
      now destruct (apply_auto_detection _ _ _ _). }
  unfold apply_auto_detection.
  assert (empty df = false) as ->.
  { unfold empty. rewrite Hcols, Hidx. unfold range_index.
    destruct n; [lia|reflexivity]. }
  rewrite Hcols. fold (first_column_rows df) in *.
  assert (items (index df) column = first_column_rows df) as ->
    by (unfold first_column_rows; now rewrite Hcols).
  rewrite Hfound. simpl. split; [|reflexivity].
  assert (snd <$> first_column_rows df = vs) as Hvals
    by (rewrite Hrows; now apply snd_combine_range).
  unfold region, data_end. rewrite Hvals. fold n.
  destruct cut_at_empty.
  - unfold py_slice_from, slice_bound.
    destruct (Z.ltb_spec (Z.of_nat s) 0) as [?|_]; [lia|].
    rewrite Nat2Z.id, Nat.min_l.
    2:{ rewrite Hrows. unfold range_index.
        rewrite length_combine, length_map, length_seq. fold n. lia. }
    rewrite Hrows. unfold range_index at 1.
    pose proof (first_true_null_mask 0 s vs) as Hmask. fold n in Hmask.
    rewrite Hmask. clear Hmask.
    destruct (first_blank_from s vs) as [p|] eqn:Hp; simpl.
    + apply first_blank_from_bounds in Hp as [Hsp (w & Hw & Hblank)].
      assert (s <> p) by (intros ->; congruence).
      unfold loc, rows_between. apply select_rows_ext. intros A l.
      rewrite Hidx. fold n.
      replace (Z.of_nat p - 1) with (Z.of_nat (p - 1)) by lia.
      apply loc_mask_range_index. lia.
    + unfold loc_from, rows_between. apply select_rows_ext. intros A l.
      rewrite Hidx. fold n. rewrite loc_from_mask_range_index by lia.
      f_equal. lia.
  - unfold loc_from, rows_between. apply select_rows_ext. intros A l.
    rewrite Hidx. fold n. rewrite loc_from_mask_range_index by lia.
    f_equal. lia.
Qed.

End LoadedTable.

(** The example of the specification: rows 2 and 3 are the region. *)
Example statement_region :
  apply_auto_detection statement ["statement"] (method_label DatePattern) true
  = (rows_between 2 3 statement, [st_success_processed 2 2]) /\
  region true 2 statement = rows_between 2 3 statement.
Proof. split; reflexivity. Qed.

(** C2 at a table whose labels are not 0..n-1. The data starts at the
    first row (label 2) and the next row is blank, so the region is the
    first row alone; [apply_auto_detection] looks for the blank from
    position 2 on (the label, used as a position), finds none, and returns
    all four rows. *)
Theorem auto_detection_misses_blank_on_relabelled_table :
  find_data_start_dynamic (first_column_rows relabelled) []
    (method_label DatePattern) = Some 2 /\
  region true 0 relabelled
  = {| index := [2]; columns := [("Date", ObjectSeries [Str "01-03-2024"])] |} /\
  apply_auto_detection relabelled [] (method_label DatePattern) true
  = (relabelled, [st_success_processed 4 2]) /\
  fst (apply_auto_detection relabelled [] (method_label DatePattern) true)
  <> region true 0 relabelled.
Proof. repeat split; try reflexivity. discriminate. Qed.

(** ** The date-pattern predicate *)

Section DatePatternForms.

Lemma in_remainders_digit (s t : string) :
  In t (Re.remainders Re.Digit s)
  <-> exists c, s = String c t /\ PyStr.is_digit c = true.
Proof.
  simpl. destruct s as [|c u]; [split; [intros []|intros (c & Hc & _); discriminate]|].
  destruct (PyStr.is_digit c) eqn:Hd; simpl; split.
  - intros [<-|[]]. eauto.
  - intros (c' & Heq & _). injection Heq as _ ->. now left.
  - intros [].
  - intros (c' & Heq & Hd'). injection Heq as <- _. congruence.
Qed.

Lemma in_remainders_lit (a : ascii) (s t : string) :
  In t (Re.remainders (Re.Lit a) s) <-> s = String a t.
Proof.
  simpl. destruct s as [|c u]; [split; [intros []|discriminate]|].
  destruct (Ascii.eqb_spec a c) as [->|Hne]; simpl; split.
  - intros [<-|[]]. reflexivity.
  - intros Heq. injection Heq as ->. now left.
  - intros [].
  - intros Heq. injection Heq as <- _. congruence.
Qed.

Lemma in_remainders_cat (r1 r2 : Re.regex) (s t : string) :
  In t (Re.remainders (Re.Cat r1 r2) s)
  <-> exists u, In u (Re.remainders r1 s) /\ In t (Re.remainders r2 u).
Proof. simpl. apply in_flat_map. Qed.

Lemma in_remainders_digits (lo hi : nat) (s t : string) :
  In t (Re.remainders (digits lo hi) s)
  <-> exists d, s = String.append d t /\ number lo hi d.
Proof.
  unfold digits, number. simpl. revert lo s.
  induction hi as [|hi IH]; intros lo s; simpl; rewrite in_app_iff.
  - split.
    + intros [Hin|[]]. destruct lo; simpl in Hin; [|destruct Hin].
      destruct Hin as [<-|[]]. exists EmptyString. simpl. auto.
    + intros (d & -> & [Hlo Hhi] & _). left.
      destruct d; simpl in *; [|lia]. destruct lo; [now left|lia].
  - rewrite in_flat_map. split.
    + intros [Hin|(u & Hu & Hin)].
      * destruct lo; simpl in Hin; [|destruct Hin].
        destruct Hin as [<-|[]]. exists EmptyString. simpl.
        repeat split; lia.
      * apply (in_remainders_digit s u) in Hu as (c & -> & Hc).
        apply IH in Hin as (d & -> & [Hlo Hhi] & Hall).
        exists (String c d). simpl. rewrite Hc, Hall.
        repeat split; lia.
    + intros (d & -> & [Hlo Hhi] & Hall). destruct d as [|c d]; simpl in *.
      * left. destruct lo; [now left|lia].
      * right. apply andb_prop in Hall as [Hc Hall].
        exists (String.append d t). split.
        -- apply (in_remainders_digit (String c (String.append d t))). eauto.
        -- apply IH. exists d. repeat split; [lia|lia|assumption].
Qed.

Lemma re_match_true (r : Re.regex) (s : string) :
  Re.re_match r s = true <-> exists t, In t (Re.remainders r s).
Proof.
  unfold Re.re_match. destruct (Re.remainders r s) as [|t ts]; split.
  - discriminate.
  - intros (t & []).
  - intros _. exists t. now left.
  - reflexivity.
Qed.

(** A pattern "number, separator, number, separator, number". *)
Lemma re_match_three_numbers (a b c d e f : nat) (sep : ascii) (s : string) :
  Re.re_match
    (Re.Cat (digits a b) (Re.Cat (Re.Lit sep) (Re.Cat (digits c d)
       (Re.Cat (Re.Lit sep) (digits e f))))) s = true
  <-> exists x y z rest : string,
        s = String.append x (String sep (String.append y
              (String sep (String.append z rest)))) /\
        number a b x /\ number c d y /\ number e f z.
Proof.
  rewrite re_match_true. split.
  - intros (t & Ht).
    apply in_remainders_cat in Ht as (u1 & H1 & Ht).
    apply in_remainders_cat in Ht as (u2 & H2 & Ht).
    apply in_remainders_cat in Ht as (u3 & H3 & Ht).
    apply in_remainders_cat in Ht as (u4 & H4 & Ht).
    apply in_remainders_digits in H1 as (x & -> & Hx).
    apply in_remainders_lit in H2 as ->.
    apply in_remainders_digits in H3 as (y & -> & Hy).
    apply in_remainders_lit in H4 as ->.
    apply in_remainders_digits in Ht as (z & -> & Hz).
    exists x, y, z, t. auto.
  - intros (x & y & z & rest & -> & Hx & Hy & Hz). exists rest.
    apply in_remainders_cat. eexists. split.
    { apply in_remainders_digits. eauto. }
    apply in_remainders_cat. eexists. split.
    { apply in_remainders_lit. reflexivity. }
    apply in_remainders_cat. eexists. split.
    { apply in_remainders_digits. eauto. }
    apply in_remainders_cat. eexists. split.
    { apply in_remainders_lit. reflexivity. }
    apply in_remainders_digits. eauto.
Qed.

End DatePatternForms.

(** C8. For every string, [is_date_pattern] holds if and only if the
    string begins with one of the forms D-M-YYYY, YYYY-M-D or D/M/YYYY,
    day and month being numbers of one or two digits and the year a number
    of four digits; what follows the form is not inspected. *)
Theorem is_date_pattern_iff_begins_with_date (value_str : string) :
  is_date_pattern value_str = true <-> begins_with_date value_str.
Proof.
  unfold is_date_pattern, PyStr.py_any, date_patterns, begins_with_date,
    begins_with_dmy, begins_with_ymd.
  simpl. rewrite orb_false_r, !orb_true_iff, !re_match_three_numbers.
  tauto.
Qed.

(** ** Spreadsheet header guess *)

Section HeaderGuess.

(** The running best of [idxmax_from], over counts labelled by position:
    the result is a position in the range, at least as good as every
    entry, and strictly better than every entry before it. *)
Lemma idxmax_from_spec (counts : list nat) (k b cb : nat) :
  (b < k)%nat ->
  exists (p c : nat),
    Loader.idxmax_from (Z.of_nat b, cb)
      (combine (map Z.of_nat (seq k (length counts))) counts) = Z.of_nat p /\
    (cb <= c)%nat /\
    (forall (i ci : nat), counts !! i = Some ci -> (ci <= c)%nat) /\
    ((p = b /\ c = cb /\
      forall (i ci : nat), counts !! i = Some ci -> (ci <= cb)%nat) \/
     (exists i, p = (k + i)%nat /\ counts !! i = Some c /\ (cb < c)%nat /\
        forall (j cj : nat), (j < i)%nat -> counts !! j = Some cj -> (cj < c)%nat)).
Proof.
  revert k b cb. induction counts as [|c0 counts IH]; intros k b cb Hb.
  - exists b, cb. simpl. repeat split; [lia| |].
    + intros i ci Hi. destruct i; discriminate.
    + left. repeat split. intros i ci Hi. destruct i; discriminate.
  - simpl. destruct (Nat.ltb_spec cb c0) as [Hlt|Hge].
    + destruct (IH (S k) k c0 ltac:(lia)) as (p & c & Hp & Hc & Hall & Hcase).
      exists p, c. split; [exact Hp|]. split; [lia|]. split.
      { intros [|i] ci Hi; simpl in Hi; [injection Hi as <-; lia|eauto]. }
      right. destruct Hcase as [(-> & -> & Hle)|(i & -> & Hi & Hci & Hbefore)].
      * exists 0%nat. repeat split; [lia|lia|].
        intros j cj Hj. lia.
      * exists (S i). repeat split; [lia|exact Hi|lia|].
        intros [|j] cj Hj Hcj; simpl in Hcj.
        -- injection Hcj as <-. lia.
        -- apply (Hbefore j); [lia|exact Hcj].
    + destruct (IH (S k) b cb ltac:(lia)) as (p & c & Hp & Hc & Hall & Hcase).
      exists p, c. split; [exact Hp|]. split; [lia|]. split.
      { intros [|i] ci Hi; simpl in Hi; [injection Hi as <-; lia|eauto]. }
      destruct Hcase as [(-> & -> & Hle)|(i & -> & Hi & Hci & Hbefore)].
      * left. repeat split.
        intros [|i] ci Hi; simpl in Hi; [injection Hi as <-; lia|eauto].
      * right. exists (S i). repeat split; [lia|exact Hi|lia|].
        intros [|j] cj Hj Hcj; simpl in Hcj.
        -- injection Hcj as <-. lia.
        -- apply (Hbefore j); [lia|exact Hcj].
Qed.

(** [idxmax] over the counts the loader computes: the first row with the
    greatest [notnull_count]. *)
Lemma likely_header_row_greatest_count (first : list value)
    (others : list (list value)) :
  exists h : nat,
    Loader.likely_header_row (first :: others) = inr (Z.of_nat h) /\
    exists row,
      (first :: others) !! h = Some row /\
      (forall (i : nat) (other : list value),
         (first :: others) !! i = Some other ->
         (Loader.notnull_count other <= Loader.notnull_count row)%nat) /\
      (forall (i : nat) (other : list value),
         (i < h)%nat -> (first :: others) !! i = Some other ->
         (Loader.notnull_count other < Loader.notnull_count row)%nat).
Proof.
  unfold Loader.likely_header_row, range_index. simpl.
  destruct (idxmax_from_spec (map Loader.notnull_count others) 1 0
              (Loader.notnull_count first) ltac:(lia))
    as (p & c & Hp & Hc & Hall & Hcase).
  rewrite length_map in Hp. simpl in Hp.
  exists p. split; [now rewrite Hp|].
  destruct Hcase as [(-> & -> & Hle)|(i & -> & Hi & Hci & Hbefore)].
  - exists first. split; [reflexivity|]. split.
    + intros [|i] other Hother; simpl in Hother; [injection Hother as <-; lia|].
      apply (Hle i). rewrite list_lookup_fmap, Hother. reflexivity.
    + intros i other Hlt. lia.
  - rewrite list_lookup_fmap in Hi.
    destruct (others !! i) as [row|] eqn:Hrow; [|discriminate].
    injection Hi as <-. exists row. split; [exact Hrow|]. split.
    + intros [|j] other Hother; simpl in Hother; [injection Hother as <-; lia|].
      apply (Hall j). rewrite list_lookup_fmap, Hother. reflexivity.
    + intros [|j] other Hlt Hother; simpl in Hother.
      * injection Hother as <-. lia.
      * apply (Hbefore j); [lia|]. rewrite list_lookup_fmap, Hother. reflexivity.
Qed.

(** The count of the loader, [notnull().sum(axis=1)] of a row, is the
    number of its cells that hold a value. *)
Lemma notnull_count_non_null (row : list value) :
  Loader.notnull_count row = non_null_cells row.
Proof.
  unfold Loader.notnull_count.
  induction row as [|v row IH]; [reflexivity|].
  destruct v; simpl; now rewrite IH.
Qed.

Lemma likely_header_row_first_fullest (first : list value)
    (others : list (list value)) :
  exists h : nat,
    Loader.likely_header_row (first :: others) = inr (Z.of_nat h) /\
    first_fullest_row (first :: others) h.
Proof.
  destruct (likely_header_row_greatest_count first others)
    as (h & Hh & row & Hrow & Hall & Hbefore).
  exists h. split; [exact Hh|]. exists row. split; [exact Hrow|]. split.
  - intros i other Hother. rewrite <- !notnull_count_non_null.
    now apply (Hall i).
  - intros i other Hlt Hother. rewrite <- !notnull_count_non_null.
    now apply (Hbefore i).
Qed.

(** A preview has at most one first fullest row. *)
Lemma first_fullest_row_unique (preview : list (list value)) (h h' : nat) :
  first_fullest_row preview h -> first_fullest_row preview h' -> h' = h.
Proof.
  intros (row & Hrow & Hall & Hbefore) (row' & Hrow' & Hall' & Hbefore').
  destruct (Nat.lt_trichotomy h h') as [Hlt|[Heq|Hlt]]; [|now symmetry|].
  - pose proof (Hbefore' h row Hlt Hrow). pose proof (Hall h' row' Hrow'). lia.
  - pose proof (Hbefore h' row' Hlt Hrow'). pose proof (Hall' h row Hrow). lia.
Qed.

End HeaderGuess.

(** C9. For every spreadsheet (a file whose name does not end in ".csv")
    with at least one row, the loader reads the first 5 rows with
    [header=None], takes as header the row with the greatest number of
    non-null cells, the first such row on a tie (there is exactly one such
    row), and returns the sheet read again with that row as its header (or
    the error of that second read). *)
Theorem header_row_is_first_fullest_row `{Loader.Readers}
    (uploaded_file : Loader.upload) (preview : list (list value)) :
  Loader.endswith (Loader.name uploaded_file) ".csv" = false ->
  Loader.read_excel_rows uploaded_file 5 = inr preview ->
  preview <> [] ->
  exists h : nat,
    first_fullest_row preview h /\
    (forall h' : nat, first_fullest_row preview h' -> h' = h) /\
    Loader.likely_header_row preview = inr (Z.of_nat h) /\
    Loader.read_uploaded_file_basic uploaded_file
    = match Loader.read_excel uploaded_file (Z.of_nat h) with
      | inr df => (Some df, None)
      | inl e => (None, Some e)
      end.
Proof.
  intros Hname Hpreview Hrows.
  destruct preview as [|first others]; [congruence|].
  destruct (likely_header_row_first_fullest first others) as (h & Hh & Hfull).
  exists h. split; [exact Hfull|].
  split; [intros h' Hfull'; exact (first_fullest_row_unique _ _ _ Hfull Hfull')|].
  split; [exact Hh|].
  unfold Loader.read_uploaded_file_basic.
  now rewrite Hname, Hpreview, Hh.
Qed.

Lemma header_row_is_first_fullest_row_witness :
  Loader.endswith (Loader.name SampleReaders.bank_sheet) ".csv" = false /\
  Loader.read_excel_rows SampleReaders.bank_sheet 5
  = inr (snd SampleReaders.bank_sheet) /\
  snd SampleReaders.bank_sheet <> [] /\
  first_fullest_row (snd SampleReaders.bank_sheet) 1 /\
  Loader.likely_header_row (snd SampleReaders.bank_sheet) = inr 1 /\
  Loader.read_uploaded_file_basic SampleReaders.bank_sheet
  = match Loader.read_excel SampleReaders.bank_sheet 1 with
    | inr df => (Some df, None)
    | inl e => (None, Some e)
    end.
Proof.
  split; [reflexivity|]. split; [reflexivity|]. split; [discriminate|].
  destruct (header_row_is_first_fullest_row SampleReaders.bank_sheet
              (snd SampleReaders.bank_sheet))
    as (h & Hfull & _ & Hh & Hread); [reflexivity|reflexivity|discriminate|].
  assert (Loader.likely_header_row (snd SampleReaders.bank_sheet) = inr 1)
    as Hone by reflexivity.
  rewrite Hone in Hh. injection Hh as Hh.
  assert (h = 1%nat) as -> by lia.
  split; [exact Hfull|]. split; [exact Hone|exact Hread].
Defined.

Example bank_sheet_header :
  Loader.likely_header_row (snd SampleReaders.bank_sheet) = inr 1.
Proof. reflexivity. Qed.

(** ** Range filter *)

Section RangeFilterProperties.
Import RangeFilter.

Lemma datetime_cols_nil (df : DataFrame) :
  datetime_cols df = []
  <-> Forall (fun c => is_datetime64_any_dtype (snd c) = false) (columns df).
Proof.
  unfold datetime_cols. induction (columns df) as [|[label s] cols IH]; simpl.
  - split; [constructor|reflexivity].
  - destruct (is_datetime64_any_dtype s) eqn:Hs; simpl; split.
    + discriminate.
    + intros Hall. apply Forall_cons in Hall as [Hc _]. simpl in Hc. congruence.
    + intros Hnil. constructor; [exact Hs|]. now apply IH.
    + intros Hall. apply Forall_cons in Hall as [_ Hall]. now apply IH.
Qed.

Lemma get_column_elem (col : string) (s : Series) (cols : list (string * Series)) :
  Converter.get_column col cols = Some s -> (col, s) ∈ cols.
Proof.
  induction cols as [|[label s'] cols IH]; simpl; [discriminate|].
  destruct (String.eqb_spec label col) as [->|Hne].
  - intros [= ->]. left.
  - intros Hget. right. now apply IH.
Qed.

(** With a datetime column chosen and filtering not skipped, the stage
    comes down to the comparison of the two dates. *)
Lemma filter_by_date_range_checks_range (df : DataFrame) (ui : filter_input)
    (ts : list (option Z)) :
  Converter.get_column (date_column ui) (columns df) = Some (Datetime64Series ts) ->
  skip_filter ui = false ->
  filter_by_date_range df ui
  = if start_date ui <=? end_date ui then
      let filtered_df :=
        rows_in_range (lower_bound (start_date ui)) (upper_bound (end_date ui))
          ts df in
      (inr filtered_df,
       [st_info_available_dates (date_of <$> series_min ts)
          (date_of <$> series_max ts);
        if negb (len filtered_df =? len df)%nat
        then st_success_filtered (len filtered_df) (len df)
        else st_info info_all_included])
    else (inr df,
          [st_info_available_dates (date_of <$> series_min ts)
             (date_of <$> series_max ts);
           st_error error_invalid_range]).
Proof.
  intros Hcol Hskip. unfold filter_by_date_range.
  destruct (datetime_cols df) as [|c cs] eqn:Hcols.
  - apply datetime_cols_nil in Hcols. apply get_column_elem in Hcol.
    rewrite Forall_forall in Hcols. apply Hcols in Hcol. discriminate.
  - rewrite Hcol, Hskip.
    destruct (start_date ui <=? end_date ui); [|reflexivity].
    assert (map (fun v => ge_at (to_datetime_date (start_date ui)) v &&
                          le_at (to_datetime_date (end_date ui) + day - second) v) ts
            = map (in_range (lower_bound (start_date ui))
                     (upper_bound (end_date ui))) ts) as Hmask.
    { apply map_ext. intros [v|]; [|reflexivity].
      unfold in_range, lower_bound, upper_bound, to_datetime_date, ge_at, le_at.
      do 2 f_equal. lia. }
    cbv zeta. rewrite Hmask. unfold rows_in_range. simpl.
    now destruct (negb _).
Qed.


Lemma in_range_iff (lower upper : Z) (o : option Z) :
  in_range lower upper o = true <-> exists v, o = Some v /\ lower <= v <= upper.
Proof.
  destruct o as [v|]; simpl.
  - rewrite andb_true_iff, !Z.leb_le. split.
    + intros Hv. exists v. auto.
    + intros (w & [= <-] & Hw). exact Hw.
  - split; [discriminate|]. intros (v & Hv & _). discriminate.
Qed.

End RangeFilterProperties.

(** The example of the specification: two of the five rows remain. *)
Example january_second_to_third :
  RangeFilter.filter_by_date_range january second_to_third
  = (inr (rows_between 1 2 january),
     [st_info_available_dates (Some 19723) (Some 19727);
      st_success_filtered 2 5]).
Proof. reflexivity. Qed.



(** C6. With a datetime column chosen and filtering not skipped: when the
    start date is after the end date the stage reports the invalid range
    with [st.error] and returns the table it was given, with no row removed
    and the two dates left as they are; when start <= end it returns the
    filtered table and reports no error. The two dates are compared before
    any row is looked at. *)
Theorem start_after_end_is_rejected (df : DataFrame)
    (ui : RangeFilter.filter_input) (ts : list (option Z)) :
  Converter.get_column (RangeFilter.date_column ui) (columns df)
  = Some (Datetime64Series ts) ->
  RangeFilter.skip_filter ui = false ->
  let result := RangeFilter.filter_by_date_range df ui in
  (RangeFilter.end_date ui < RangeFilter.start_date ui ->
   fst result = inr df /\
   In (st_error RangeFilter.error_invalid_range) (snd result)) /\
  (RangeFilter.start_date ui <= RangeFilter.end_date ui ->
   fst result
   = inr (rows_in_range (lower_bound (RangeFilter.start_date ui))
            (upper_bound (RangeFilter.end_date ui)) ts df) /\
   ~ In (st_error RangeFilter.error_invalid_range) (snd result)).
Proof.
  intros Hcol Hskip result. unfold result.
  rewrite (filter_by_date_range_checks_range df ui ts Hcol Hskip).
  split; intros Hdates.
  - apply Z.leb_gt in Hdates. rewrite Hdates. simpl. auto.
  - apply Z.leb_le in Hdates. rewrite Hdates. cbv zeta. split; [reflexivity|].
    simpl. destruct (negb _); intros [Hin|[Hin|[]]]; discriminate.
Qed.

Lemma start_after_end_is_rejected_witness :
  Converter.get_column "Date" (columns january)
  = Some (Datetime64Series
            (map (fun d => Some (RangeFilter.to_datetime_date d))
               [19723; 19724; 19725; 19726; 19727])) /\
  RangeFilter.skip_filter third_to_second = false /\
  19724 < 19725 /\
  fst (RangeFilter.filter_by_date_range january third_to_second) = inr january /\
  In (st_error RangeFilter.error_invalid_range)
    (snd (RangeFilter.filter_by_date_range january third_to_second)).
Proof.
  split; [reflexivity|]. split; [reflexivity|]. split; [lia|].
  apply (start_after_end_is_rejected january third_to_second
           (map (fun d => Some (RangeFilter.to_datetime_date d))
              [19723; 19724; 19725; 19726; 19727]));
    [reflexivity|reflexivity|simpl; lia].
Defined.

(** C10. For every table without a datetime column, the date-range stage
    returns the table it was given and the note that no datetime column
    was found, whatever the column choice, the two dates and the skip box
    are: no date range is evaluated and nothing is raised. *)
Theorem no_datetime_column_is_a_no_op (df : DataFrame)
    (ui : RangeFilter.filter_input) :
  Forall (fun c => is_datetime64_any_dtype (snd c) = false) (columns df) ->
  RangeFilter.filter_by_date_range df ui
  = (inr df, [st_info RangeFilter.info_no_datetime]).
Proof.
  intros Hnone. apply datetime_cols_nil in Hnone.
  unfold RangeFilter.filter_by_date_range. now rewrite Hnone.
Qed.

Lemma no_datetime_column_is_a_no_op_witness :
  Forall (fun c => is_datetime64_any_dtype (snd c) = false) (columns statement) /\
  RangeFilter.filter_by_date_range statement third_to_second
  = (inr statement, [st_info RangeFilter.info_no_datetime]).
Proof.
  split.
  - repeat constructor.
  - apply (no_datetime_column_is_a_no_op statement third_to_second).
    repeat constructor.
Defined.

(** ** Temporal converter *)

Section ConverterProperties.
Context `{Builtins}.
Import Converter.

Lemma set_column_labels (col : string) (s : Series) (cols : list (string * Series)) :
  map fst (set_column col s cols) = map fst cols.
Proof.
  induction cols as [|[n old] cols IH]; simpl; [reflexivity|].
  destruct (String.eqb n col); simpl; [reflexivity|now rewrite IH].
Qed.

Lemma set_column_other (col : string) (s : Series) (cols : list (string * Series))
    (i : nat) (n : string) (old : Series) :
  n <> col -> cols !! i = Some (n, old) ->
  set_column col s cols !! i = Some (n, old).
Proof.
  intros Hne. revert i. induction cols as [|[n' old'] cols IH]; intros i Hi.
  - destruct i; discriminate.
  - simpl. destruct (String.eqb_spec n' col) as [->|Hne'].
    + destruct i; simpl in *; [|exact Hi]. injection Hi as -> _. congruence.
    + destruct i; simpl in *; [exact Hi|]. now apply IH.
Qed.

Lemma get_set_column_same (col : string) (s old : Series)
    (cols : list (string * Series)) :
  get_column col cols = Some old ->
  get_column col (set_column col s cols) = Some s.
Proof.
  induction cols as [|[n' old'] cols IH]; simpl; [discriminate|].
  destruct (String.eqb n' col) eqn:Hn; simpl; rewrite Hn; [reflexivity|exact IH].
Qed.

Lemma get_set_column_other (col n : string) (s : Series)
    (cols : list (string * Series)) :
  n <> col -> get_column n (set_column col s cols) = get_column n cols.
Proof.
  intros Hne. induction cols as [|[n' old'] cols IH]; simpl; [reflexivity|].
  destruct (String.eqb_spec n' col) as [->|Hne']; simpl.
  - destruct (String.eqb_spec col n); [congruence|reflexivity].
  - destruct (String.eqb n' n); [reflexivity|exact IH].
Qed.

Lemma to_datetime_idem (s : Series) : to_datetime (to_datetime s) = to_datetime s.
Proof. destruct s; reflexivity. Qed.

(** What the loop leaves: the labels in their order, every column that
    was not chosen as it was, and every chosen column converted. *)
Lemma convert_loop_frame (todo : list string) (cols : list (string * Series)) :
  let cols' := fst (fst (convert_loop todo cols)) in
  map fst cols' = map fst cols /\
  (forall (i : nat) (n : string) (s : Series),
     cols !! i = Some (n, s) -> ~ In n todo -> cols' !! i = Some (n, s)) /\
  (forall (n : string) (s : Series),
     get_column n cols = Some s -> ~ In n todo ->
     get_column n cols' = Some s) /\
  (forall (n : string) (s : Series),
     get_column n cols = Some s -> In n todo ->
     get_column n cols' = Some (to_datetime s)).
Proof.
  revert cols. induction todo as [|col todo IH]; intros cols; simpl.
  - repeat split; auto. intros n s _ [].
  - destruct (get_column col cols) as [found|] eqn:Hfound.
    + specialize (IH (set_column col (to_datetime found) cols)).
      destruct (convert_loop todo (set_column col (to_datetime found) cols))
        as [[cols' ok] failed]. simpl in *.
      destruct IH as (Hlabels & Hkeep & Hget & Hconv).
      split; [now rewrite Hlabels, set_column_labels|]. split; [|split].
      * intros i n s Hi Hn. apply Hkeep; [|tauto].
        apply set_column_other; [|exact Hi]. intros ->. tauto.
      * intros n s Hn Hnot. apply Hget; [|tauto].
        rewrite get_set_column_other; [exact Hn|]. intros ->. tauto.
      * intros n s Hn Hin.
        destruct (String.eqb_spec col n) as [->|Hne].
        -- assert (found = s) as -> by congruence.
           pose proof (get_set_column_same n (to_datetime s) s cols Hn) as Hset.
           destruct (in_dec String.string_dec n todo) as [Hlater|Hnot].
           ++ rewrite <- to_datetime_idem. now apply Hconv.
           ++ now apply Hget.
        -- destruct Hin as [Heq|Hin]; [congruence|].
           apply Hconv; [|exact Hin].
           rewrite get_set_column_other; [exact Hn|congruence].
    + specialize (IH cols).
      destruct (convert_loop todo cols) as [[cols' ok] failed]. simpl in *.
      destruct IH as (Hlabels & Hkeep & Hget & Hconv).
      split; [exact Hlabels|]. split; [|split].
      * intros i n s Hi Hn. apply Hkeep; [exact Hi|tauto].
      * intros n s Hn Hnot. apply Hget; [exact Hn|tauto].
      * intros n s Hn [->|Hin]; [congruence|]. now apply Hconv.
Qed.

End ConverterProperties.




(** * Further properties *)

(** ** Skip words as the sidebar prepares them *)

Section SkipWords.
Context `{Builtins}.

Lemma upper_nonempty (s : string) : PyStr.upper s = "" -> s = "".
Proof. destruct s; [reflexivity|discriminate]. Qed.

Lemma sidebar_skip_words_configured (input : string) :
  sidebar_skip_words input = map PyStr.upper (configured_words input).
Proof.
  unfold sidebar_skip_words, configured_words.
  induction (split_commas input) as [|piece pieces IH]; simpl; [reflexivity|].
  destruct (String.eqb (PyStr.strip piece) ""); simpl; now rewrite IH.
Qed.

Lemma contains_ci_upper (w text : string) :
  contains_ci (PyStr.upper w) text = contains_ci w text.
Proof. unfold contains_ci. now rewrite upper_idem. Qed.

Lemma qualifies_upper (skip_words : list string) (m : DetectionMethod) (v : value) :
  qualifies (map PyStr.upper skip_words) m v = qualifies skip_words m v.
Proof.
  unfold qualifies. do 3 f_equal.
  induction skip_words as [|w ws IH]; simpl; [reflexivity|].
  now rewrite contains_ci_upper, IH.
Qed.

Lemma earliest_qualifying_upper (skip_words : list string) (m : DetectionMethod)
    (rows : list (Z * value)) (r : option Z) :
  earliest_qualifying (map PyStr.upper skip_words) m rows r ->
  earliest_qualifying skip_words m rows r.
Proof.
  unfold earliest_qualifying. destruct r as [label|].
  - intros (i & v & Hi & Hq & Hbefore). exists i, v.
    rewrite qualifies_upper in Hq. repeat split; [exact Hi|exact Hq|].
    intros j row Hj Hrow. rewrite <- qualifies_upper. now apply (Hbefore j).
  - intros Hall i row Hrow. rewrite <- qualifies_upper. now apply (Hall i).
Qed.

Lemma contains_empty (s : string) : PyStr.contains "" s = true.
Proof. destruct s; reflexivity. Qed.

End SkipWords.

(** X1. Every skip word the sidebar passes on is in upper case and is not
    the empty text. *)
Theorem sidebar_skip_words_are_upper_case_and_not_empty
    (skip_words_input w : string) :
  In w (sidebar_skip_words skip_words_input) ->
  PyStr.upper w = w /\ w <> "".
Proof.
  intros Hw. split.
  - pose proof (sidebar_skip_words_upper_cased skip_words_input) as Hup.
    unfold upper_cased in Hup. rewrite Forall_forall in Hup.
    apply Hup. now apply list_elem_of_In.
  - unfold sidebar_skip_words in Hw. apply in_map_iff in Hw as (piece & <- & Hpiece).
    apply filter_In in Hpiece as [_ Hnonblank].
    apply negb_true_iff in Hnonblank. intros Hempty.
    apply upper_nonempty in Hempty. rewrite Hempty in Hnonblank. discriminate.
Qed.

Lemma sidebar_skip_words_are_upper_case_and_not_empty_witness :
  In "TOTAL" (sidebar_skip_words "statement, total ,,") /\
  PyStr.upper "TOTAL" = "TOTAL" /\ "TOTAL" <> "".
Proof.
  split.
  - vm_compute. auto.
  - apply (sidebar_skip_words_are_upper_case_and_not_empty "statement, total ,,").
    vm_compute. auto.
Defined.

(** X2. With the skip words prepared by the sidebar, the loop returns the
    earliest row that qualifies with respect to the words as the user
    typed them, in whatever case: the index of the first row that is not
    blank, contains none of the configured words (compared without regard
    to case) and satisfies the method; [None] when there is none. *)
Theorem sidebar_words_are_matched_in_any_case `{Builtins}
    (rows : list (Z * value)) (skip_words_input : string) (m : DetectionMethod) :
  earliest_qualifying (configured_words skip_words_input) m rows
    (find_data_start_dynamic rows (sidebar_skip_words skip_words_input)
       (method_label m)).
Proof.
  apply earliest_qualifying_upper. rewrite <- sidebar_skip_words_configured.
  apply find_data_start_dynamic_earliest, sidebar_skip_words_upper_cased.
Qed.

(** X3. An empty text among the skip words makes every search fail: it
    occurs in every text, so every row is skipped. *)
Theorem empty_skip_word_skips_every_row `{Builtins}
    (rows : list (Z * value)) (skip_words : list string)
    (detection_method : string) :
  In "" skip_words ->
  find_data_start_dynamic rows skip_words detection_method = None.
Proof.
  intros Hempty.
  assert (forall text, PyStr.py_any
            (fun skip_word => PyStr.contains skip_word (PyStr.upper text))
            skip_words = true) as Hskip.
  { intros text. apply existsb_exists. exists "". split; [exact Hempty|].
    apply contains_empty. }
  induction rows as [|[label v] rows IH]; simpl; [reflexivity|].
  destruct (is_blank v); [exact IH|]. now rewrite Hskip.
Qed.

Lemma empty_skip_word_skips_every_row_witness :
  In "" ["TOTAL"; ""] /\
  find_data_start_dynamic title_rows ["TOTAL"; ""]
    (method_label FirstNonBlankAfterBlank) = None.
Proof.
  split; [simpl; auto|].
  apply (empty_skip_word_skips_every_row title_rows ["TOTAL"; ""]).
  simpl. auto.
Defined.

(** X4. A method text other than the four of the select box selects no
    branch of the loop: the search fails on every column. *)
Theorem unknown_method_finds_nothing `{Builtins}
    (rows : list (Z * value)) (skip_words : list string)
    (detection_method : string) :
  (forall m : DetectionMethod, detection_method <> method_label m) ->
  find_data_start_dynamic rows skip_words detection_method = None.
Proof.
  intros Hother.
  pose proof (Hother DatePattern) as H1. pose proof (Hother NumericPattern) as H2.
  pose proof (Hother FirstNonBlankAfterBlank) as H3.
  pose proof (Hother FirstNonHeaderLike) as H4. simpl in H1, H2, H3, H4.
  apply String.eqb_neq in H1, H2, H3, H4.
  induction rows as [|[label v] rows IH]; simpl; [reflexivity|].
  rewrite H1, H2, H3, H4, IH. destruct (is_blank v); [reflexivity|].
  now destruct (PyStr.py_any _ skip_words).
Qed.

Lemma unknown_method_finds_nothing_witness :
  (forall m : DetectionMethod, "Dates" <> method_label m) /\
  find_data_start_dynamic title_rows [] "Dates" = None.
Proof.
  split; [intros []; discriminate|].
  apply (unknown_method_finds_nothing title_rows [] "Dates").
  intros []; discriminate.
Defined.

(** X5. Whatever the skip words (in any case) and the method text, an
    index returned by the loop is the label of a row of the column whose
    value is not blank, whose upper-cased trimmed text contains none of
    the skip words as given, and which satisfies the test of the method. *)
Theorem data_start_row_passes_the_loop_tests `{Builtins}
    (rows : list (Z * value)) (skip_words : list string)
    (detection_method : string) (label : Z) :
  find_data_start_dynamic rows skip_words detection_method = Some label ->
  exists (i : nat) (v : value),
    rows !! i = Some (label, v) /\
    passes_loop_tests skip_words detection_method v.
Proof.
  induction rows as [|[l v] rows IH]; simpl; [discriminate|].
  intros Hfound.
  assert (is_blank v = false /\
          PyStr.py_any (fun w => PyStr.contains w
                                   (PyStr.upper (PyStr.strip (py_str v))))
            skip_words = false /\
          Some l = Some label /\
          (String.eqb detection_method "Date patterns" = true /\
           is_date_pattern (PyStr.strip (py_str v)) = true \/
           String.eqb detection_method "Date patterns" = false /\
           String.eqb detection_method "Numeric patterns" = true /\
           is_numeric_pattern (PyStr.strip (py_str v)) = true \/
           String.eqb detection_method "Date patterns" = false /\
           String.eqb detection_method "Numeric patterns" = false /\
           String.eqb detection_method "Non-empty after empty" = true \/
           String.eqb detection_method "Date patterns" = false /\
           String.eqb detection_method "Numeric patterns" = false /\
           String.eqb detection_method "Non-empty after empty" = false /\
           String.eqb detection_method "First non-header row" = true /\
           looks_like_header (PyStr.strip (py_str v)) = false) \/
          find_data_start_dynamic rows skip_words detection_method = Some label)
    as [Hhere|Hlater].
  { destruct (is_blank v); [now right|].
    destruct (PyStr.py_any _ skip_words); [now right|].
    destruct (String.eqb detection_method "Date patterns").
    { destruct (is_date_pattern _); [left|now right]. tauto. }
    destruct (String.eqb detection_method "Numeric patterns").
    { destruct (is_numeric_pattern _); [left|now right]. tauto. }
    destruct (String.eqb detection_method "Non-empty after empty").
    { left. tauto. }
    destruct (String.eqb detection_method "First non-header row"); [|now right].
    destruct (looks_like_header _); [now right|left]. tauto. }
  - destruct Hhere as (Hblank & Hskip & [= ->] & Hmethod).
    exists 0%nat, v. split; [reflexivity|]. split; [exact Hblank|]. split.
    { intros w Hw.
      destruct (PyStr.contains w _) eqn:Hc; [|reflexivity].
      assert (PyStr.py_any (fun w => PyStr.contains w
                (PyStr.upper (PyStr.strip (py_str v)))) skip_words = true)
        as Hany by (apply existsb_exists; eauto).
      congruence. }
    repeat split; intros ->; simpl in Hmethod;
      destruct Hmethod as [Hm|[Hm|[Hm|Hm]]]; try tauto;
      repeat match goal with
             | H : _ /\ _ |- _ => destruct H
             end; try discriminate; assumption.
  - destruct (IH Hlater) as (i & w & Hi & Hw). exists (S i), w. auto.
Qed.

Lemma data_start_row_passes_the_loop_tests_witness :
  find_data_start_dynamic title_rows ["statement"]
    (method_label FirstNonBlankAfterBlank) = Some 0 /\
  exists (i : nat) (v : value),
    title_rows !! i = Some (0, v) /\
    passes_loop_tests ["statement"] (method_label FirstNonBlankAfterBlank) v.
Proof.
  split; [reflexivity|].
  apply (data_start_row_passes_the_loop_tests title_rows ["statement"]
           (method_label FirstNonBlankAfterBlank) 0).
  reflexivity.
Defined.

Section CutAtBlank.
Context `{Builtins}.

Lemma first_blank_from_before (s p : nat) (vs : list value) :
  first_blank_from s vs = Some p ->
  forall (j : nat) (v : value),
    (s <= j < p)%nat -> vs !! j = Some v -> is_blank v = false.
Proof.
  revert s p. induction vs as [|x vs IH]; intros s p.
  - destruct s; discriminate.
  - destruct s as [|s]; simpl.
    + destruct (is_blank x) eqn:Hx.
      * intros [= <-] j v Hj. lia.
      * destruct (first_blank_from 0 vs) as [q|] eqn:Hq; [|discriminate].
        intros [= <-] [|j] v Hj Hv; simpl in Hv.
        -- now injection Hv as <-.
        -- apply (IH _ _ Hq j); [lia|exact Hv].
    + destruct (first_blank_from s vs) as [q|] eqn:Hq; [|discriminate].
      intros [= <-] [|j] v Hj Hv; simpl in Hv; [lia|].
      apply (IH _ _ Hq j); [lia|exact Hv].
Qed.

Lemma first_blank_from_none (s : nat) (vs : list value) :
  first_blank_from s vs = None ->
  forall (j : nat) (v : value),
    (s <= j)%nat -> vs !! j = Some v -> is_blank v = false.
Proof.
  revert s. induction vs as [|x vs IH]; intros s Hnone j v Hj Hv.
  - destruct j; discriminate.
  - destruct s as [|s]; simpl in Hnone.
    + destruct (is_blank x) eqn:Hx; [discriminate|].
      destruct (first_blank_from 0 vs) as [q|] eqn:Hq; [discriminate|].
      destruct j as [|j]; simpl in Hv; [now injection Hv as <-|].
      apply (IH 0%nat Hq j); [lia|exact Hv].
    + destruct (first_blank_from s vs) as [q|] eqn:Hq; [discriminate|].
      destruct j as [|j]; simpl in Hv; [lia|].
      apply (IH s Hq j); [lia|exact Hv].
Qed.

Lemma series_values_take_drop (k s : nat) (column : Series) :
  series_values (select_series (fun A l => take k (drop s l)) column)
  = take k (drop s (series_values column)).
Proof.
  destruct column as [vs|ts]; simpl; [reflexivity|].
  now rewrite <- fmap_drop, <- fmap_take.
Qed.

Lemma lookup_combine_Some {A B} (a : list A) (b : list B) (i : nat) (x : A) (y : B) :
  combine a b !! i = Some (x, y) -> a !! i = Some x /\ b !! i = Some y.
Proof.
  revert b i. induction a as [|x' a IH]; intros [|y' b] [|i]; simpl;
    try discriminate.
  - now intros [= -> ->].
  - apply IH.
Qed.

Lemma well_formed_first_column (df : DataFrame) (first_column : string)
    (column : Series) (others : list (string * Series)) :
  well_formed df -> columns df = (first_column, column) :: others ->
  length (series_values column) = len df.
Proof.
  unfold well_formed. intros Hwf Hcols. rewrite Hcols in Hwf.
  now apply Forall_cons in Hwf as [Hc _].
Qed.

End CutAtBlank.

(** X6. On a rectangular table with the rows labelled 0..n-1, as the
    loaders give it, a successful auto-detection returns exactly the rows
    from the data start to the data end: the row before the first blank
    first-column value at or after the start when cutting at the blank (the
    last row if there is none), the last row otherwise. *)
Theorem auto_detection_returns_the_region_of_a_loaded_table `{Builtins}
    (df : DataFrame) (skip_words : list string) (detection_method : string)
    (cut_at_empty : bool) (label : Z) :
  well_formed df ->
  index df = range_index (len df) ->
  find_data_start_dynamic (first_column_rows df) skip_words detection_method
  = Some label ->
  exists s : nat,
    label = Z.of_nat s /\ (s < len df)%nat /\
    apply_auto_detection df skip_words detection_method cut_at_empty
    = (region cut_at_empty s df,
       [st_success_processed (len (region cut_at_empty s df)) label]).
Proof.
  intros Hwf Hidx Hfound.
  destruct (columns df) as [|[first_column column] others] eqn:Hcols.
  { unfold first_column_rows in Hfound. rewrite Hcols in Hfound. discriminate. }
  apply (auto_detection_region_on_loaded_table df skip_words detection_method
           cut_at_empty first_column column others label Hcols); [|exact Hfound].
  now rewrite (well_formed_first_column df first_column column others Hwf Hcols).
Qed.

Lemma auto_detection_returns_the_region_of_a_loaded_table_witness :
  well_formed statement /\
  index statement = range_index (len statement) /\
  find_data_start_dynamic (first_column_rows statement) ["STATEMENT"]
    (method_label DatePattern) = Some 2 /\
  exists s : nat,
    2 = Z.of_nat s /\ (s < len statement)%nat /\
    apply_auto_detection statement ["STATEMENT"] (method_label DatePattern) true
    = (region true s statement,
       [st_success_processed (len (region true s statement)) 2]).
Proof.
  split; [repeat constructor|]. split; [reflexivity|]. split; [reflexivity|].
  apply (auto_detection_returns_the_region_of_a_loaded_table statement
           ["STATEMENT"] (method_label DatePattern) true 2);
    [repeat constructor|reflexivity|reflexivity].
Defined.

(** X7. On such a table, when cutting at the blank, no first-column value
    of the detected region is blank. *)
Theorem detected_region_has_no_blank_first_cell `{Builtins}
    (df : DataFrame) (skip_words : list string) (detection_method : string)
    (label : Z) :
  well_formed df ->
  index df = range_index (len df) ->
  find_data_start_dynamic (first_column_rows df) skip_words detection_method
  = Some label ->
  forall (i : nat) (row : Z * value),
    first_column_rows
      (fst (apply_auto_detection df skip_words detection_method true)) !! i
    = Some row ->
    is_blank (snd row) = false.
Proof.
  intros Hwf Hidx Hfound i row Hrow.
  destruct (columns df) as [|[first_column column] others] eqn:Hcols.
  { unfold first_column_rows in Hfound. rewrite Hcols in Hfound. discriminate. }
  pose proof (well_formed_first_column df first_column column others Hwf Hcols)
    as Hlen.
  destruct (auto_detection_region_on_loaded_table df skip_words detection_method
              true first_column column others label Hcols
              ltac:(now rewrite Hlen) Hfound) as (s & -> & Hs & Hresult).
  rewrite Hresult in Hrow. simpl in Hrow.
  set (vs := series_values column) in *.
  assert (snd <$> first_column_rows df = vs) as Hvals.
  { unfold first_column_rows, items. rewrite Hcols, Hidx.
    apply snd_combine_range. now rewrite Hlen. }
  unfold region, data_end in Hrow. rewrite Hvals in Hrow.
  unfold rows_between, first_column_rows in Hrow.
  simpl in Hrow. rewrite Hcols in Hrow. simpl in Hrow.
  unfold items in Hrow. rewrite series_values_take_drop in Hrow. fold vs in Hrow.
  destruct row as [l v]. simpl.
  apply lookup_combine_Some in Hrow as [_ Hv].
  apply lookup_take_Some in Hv as [Hv Hi]. rewrite lookup_drop in Hv.
  destruct (first_blank_from s vs) as [p|] eqn:Hp.
  - assert (s <> p) as Hsp.
    { destruct (find_data_start_dynamic_some _ _ _ _ Hfound)
        as (j & w & Hj & Hw).
      unfold first_column_rows, items in Hj. rewrite Hcols, Hidx, <- Hlen in Hj.
      unfold range_index in Hj.
      apply lookup_combine_range in Hj as [Hjs Hjw].
      assert (j = s) as -> by lia.
      apply first_blank_from_bounds in Hp as [_ (b & Hb & Hblank)].
      intros <-. fold vs in Hjw. congruence. }
    pose proof (first_blank_from_bounds s p vs Hp) as [Hbound _].
    apply (first_blank_from_before s p vs Hp (s + i)%nat v); [lia|exact Hv].
  - apply (first_blank_from_none s vs Hp (s + i)%nat v); [lia|exact Hv].
Qed.

Lemma detected_region_has_no_blank_first_cell_witness :
  well_formed statement /\
  index statement = range_index (len statement) /\
  find_data_start_dynamic (first_column_rows statement) ["STATEMENT"]
    (method_label DatePattern) = Some 2 /\
  forall (i : nat) (row : Z * value),
    first_column_rows
      (fst (apply_auto_detection statement ["STATEMENT"]
              (method_label DatePattern) true)) !! i
    = Some row ->
    is_blank (snd row) = false.
Proof.
  split; [repeat constructor|]. split; [reflexivity|]. split; [reflexivity|].
  apply (detected_region_has_no_blank_first_cell statement
           ["STATEMENT"] (method_label DatePattern) 2);
    [repeat constructor|reflexivity|reflexivity].
Defined.

(** ** Row selections *)

Section RowSelections.

Lemma by_mask_uniform (mask : list bool) : uniform (fun A => by_mask mask).
Proof.
  intros A B l. revert mask. induction l as [|x l IH]; intros mask [|y l'] Hlen;
    try discriminate; destruct mask as [|b mask]; simpl; try reflexivity.
  destruct b; simpl; [f_equal|]; apply IH; now injection Hlen.
Qed.

Lemma py_slice_uniform (a b : Z) : uniform (fun A => py_slice a b).
Proof.
  intros A B l l' Hlen. unfold py_slice.
  rewrite !length_take, !length_drop, Hlen. reflexivity.
Qed.

Lemma length_series_values_select (f : forall A, list A -> list A) (s : Series) :
  uniform f ->
  length (series_values (select_series f s)) = length (f _ (series_values s)).
Proof.
  intros Hf. destruct s as [vs|ts]; simpl; [reflexivity|].
  rewrite length_map. apply Hf. now rewrite length_map.
Qed.

Lemma select_rows_well_formed (f : forall A, list A -> list A) (df : DataFrame) :
  uniform f -> well_formed df -> well_formed (select_rows f df).
Proof.
  intros Hf Hwf. unfold well_formed, len in *. simpl.
  rewrite Forall_fmap. eapply Forall_impl; [exact Hwf|].
  intros [label s] Hs. simpl in *.
  rewrite length_series_values_select by exact Hf. now apply Hf.
Qed.

Lemma by_mask_sublist {A} (mask : list bool) (l : list A) :
  by_mask mask l `sublist_of` l.
Proof.
  revert mask. induction l as [|x l IH]; intros [|b mask]; simpl;
    try apply sublist_nil_l.
  destruct b; [apply sublist_skip|apply sublist_cons]; apply IH.
Qed.

Lemma select_rows_same_labels (f : forall A, list A -> list A) (df : DataFrame) :
  map fst (columns (select_rows f df)) = map fst (columns df).
Proof.
  unfold select_rows. simpl. rewrite map_map. apply map_ext. now intros [].
Qed.

Lemma select_rows_identity (f : forall A, list A -> list A) (df : DataFrame) :
  f _ (index df) = index df ->
  Forall (fun c => select_series f (snd c) = snd c) (columns df) ->
  select_rows f df = df.
Proof.
  intros Hidx Hcols. destruct df as [idx cols]. unfold select_rows. simpl in *.
  f_equal; [exact Hidx|].
  induction Hcols as [|[label s] cols Hs _ IH]; simpl; [reflexivity|].
  simpl in Hs. now rewrite Hs, IH.
Qed.

Lemma py_slice_whole {A} (l : list A) :
  py_slice 0 (Z.of_nat (length l)) l = l.
Proof.
  unfold py_slice, slice_bound. simpl.
  destruct (Z.ltb_spec (Z.of_nat (length l)) 0) as [?|_]; [lia|].
  rewrite Nat2Z.id, Nat.min_id, Nat.sub_0_r. simpl.
  rewrite drop_0. apply take_ge. lia.
Qed.

Lemma rows_of_well_formed (r df : DataFrame) :
  well_formed df -> rows_of r df -> well_formed r.
Proof.
  intros Hwf (mask & ->).
  now apply select_rows_well_formed; [apply by_mask_uniform|].
Qed.

Lemma apply_auto_detection_rows `{Builtins} (df : DataFrame)
    (skip_words : list string) (detection_method : string) (cut_at_empty : bool) :
  let result := fst (apply_auto_detection df skip_words detection_method
                       cut_at_empty) in
  result = df \/ rows_of result df.
Proof.
  unfold apply_auto_detection, rows_of, loc, loc_from.
  destruct (empty df); [now left|].
  destruct (columns df) as [|[first_column column] others]; [now left|].
  destruct (find_data_start_dynamic _ _ _) as [start|]; [|now left].
  right. destruct cut_at_empty; [|eexists; reflexivity].
  destruct (first_true _); eexists; reflexivity.
Qed.

End RowSelections.

(** X8. Auto-detection only drops rows: its result is the table itself or
    rows of it, whole and in their order; the column labels are the same
    and the row labels are a sub-sequence of the original ones. *)
Theorem auto_detection_only_drops_rows `{Builtins} (df : DataFrame)
    (skip_words : list string) (detection_method : string) (cut_at_empty : bool) :
  let result := fst (apply_auto_detection df skip_words detection_method
                       cut_at_empty) in
  (result = df \/ rows_of result df) /\
  map fst (columns result) = map fst (columns df) /\
  index result `sublist_of` index df.
Proof.
  intros result.
  pose proof (apply_auto_detection_rows df skip_words detection_method
                cut_at_empty) as Hrows.
  cbv zeta in Hrows. fold result in Hrows.
  split; [exact Hrows|].
  destruct Hrows as [->|(mask & ->)]; [split; reflexivity|].
  split; [apply select_rows_same_labels|apply by_mask_sublist].
Qed.

(** X9. The stages that select rows keep a rectangular table rectangular:
    after auto-detection, after manual selection and after the date-range
    filter every column still has one value per row label. *)
Theorem row_selections_keep_tables_rectangular `{Builtins} (df : DataFrame) :
  well_formed df ->
  (forall skip_words detection_method cut_at_empty,
     well_formed (fst (apply_auto_detection df skip_words detection_method
                         cut_at_empty))) /\
  (forall ui : manual_input,
     well_formed (fst (manual_data_selection_sidebar df ui))) /\
  (forall (ui : RangeFilter.filter_input) (r : DataFrame),
     fst (RangeFilter.filter_by_date_range df ui) = inr r -> well_formed r).
Proof.
  intros Hwf. split; [|split].
  - intros skip_words detection_method cut_at_empty.
    unfold apply_auto_detection, loc, loc_from.
    destruct (empty df); [exact Hwf|].
    destruct (columns df) as [|[first_column column] others] eqn:Hcols;
      [exact Hwf|].
    destruct (find_data_start_dynamic _ _ _) as [start|]; [|exact Hwf].
    simpl. destruct cut_at_empty; [destruct (first_true _)|];
      now apply select_rows_well_formed; [apply by_mask_uniform|].
  - intros ui. unfold manual_data_selection_sidebar, iloc. simpl.
    now apply select_rows_well_formed; [apply py_slice_uniform|].
  - intros ui r. unfold RangeFilter.filter_by_date_range.
    destruct (RangeFilter.datetime_cols df); [now intros [= <-]|].
    destruct (Converter.get_column _ _) as [[vs|ts]|]; try discriminate.
    destruct (RangeFilter.skip_filter ui); [now intros [= <-]|].
    destruct (_ <=? _); [|now intros [= <-]].
    simpl. intros [= <-].
    now apply select_rows_well_formed; [apply by_mask_uniform|].
Qed.

Lemma row_selections_keep_tables_rectangular_witness :
  well_formed statement /\
  well_formed (fst (manual_data_selection_sidebar statement
                      {| start_row := 1; end_row := 3; show_preview := false |})).
Proof.
  split; [repeat constructor|].
  apply (row_selections_keep_tables_rectangular statement).
  repeat constructor.
Defined.

(** X10. On a rectangular table with at least one row, the values the two
    number inputs start from (0 and the last row) are values the inputs
    admit, and with them manual selection returns the table as it is and
    reports no selection. *)
Theorem manual_selection_defaults_keep_everything (df : DataFrame)
    (preview : bool) :
  well_formed df ->
  (0 < len df)%nat ->
  let ui := {| start_row := 0; end_row := Z.of_nat (len df) - 1;
               show_preview := preview |} in
  number_input_allows 0 (Z.of_nat (len df) - 1) (start_row ui) /\
  number_input_allows (start_row ui) (Z.of_nat (len df) - 1) (end_row ui) /\
  fst (manual_data_selection_sidebar df ui) = df /\
  forall rows a b,
    ~ In (st_success_selected rows a b) (snd (manual_data_selection_sidebar df ui)).
Proof.
  intros Hwf Hrow ui.
  split; [unfold number_input_allows; simpl; lia|].
  split; [unfold number_input_allows; simpl; lia|].
  assert (iloc 0 (Z.of_nat (len df) - 1 + 1) df = df) as Hall.
  { unfold iloc. replace (Z.of_nat (len df) - 1 + 1) with (Z.of_nat (len df)) by lia.
    apply select_rows_identity.
    - apply py_slice_whole.
    - unfold well_formed in Hwf. eapply Forall_impl; [exact Hwf|].
      intros [label [vs|ts]] Hlen; simpl in *; f_equal.
      + rewrite <- Hlen. apply py_slice_whole.
      + rewrite length_map in Hlen. rewrite <- Hlen. apply py_slice_whole. }
  unfold manual_data_selection_sidebar. simpl. rewrite Hall.
  split; [reflexivity|].
  rewrite Nat.eqb_refl. simpl. intros rows a b Hin.
  destruct Hin as [Hin|[Hin|Hin]]; try discriminate.
  rewrite app_nil_r in Hin. destruct preview; simpl in Hin; [|exact Hin].
  destruct Hin as [Hin|Hin]; [discriminate|].
  destruct (5 <? _)%nat; simpl in Hin; [|exact Hin].
  destruct Hin as [Hin|[]]. discriminate.
Qed.

Lemma manual_selection_defaults_keep_everything_witness :
  well_formed statement /\
  (0 < len statement)%nat /\
  number_input_allows 0 4 0 /\
  number_input_allows 0 4 4 /\
  fst (manual_data_selection_sidebar statement
         {| start_row := 0; end_row := 4; show_preview := false |}) = statement.
Proof.
  assert (well_formed statement) as Hwf by (repeat constructor).
  assert (0 < len statement)%nat as Hrow by (vm_compute; lia).
  split; [exact Hwf|]. split; [exact Hrow|].
  destruct (manual_selection_defaults_keep_everything statement false Hwf Hrow)
    as (Hstart & Hend & Hsame & _).
  split; [exact Hstart|]. split; [exact Hend|exact Hsame].
Defined.

(** ** Header-like texts and numeric texts *)

Section Predicates.
Context `{Builtins}.




Lemma remove_commas_comma (a b : string) :
  PyStr.remove_commas (String.append a (String "," b))
  = PyStr.remove_commas (String.append a b).
Proof.
  induction a as [|x a IH]; simpl; [reflexivity|]. now rewrite IH.
Qed.

End Predicates.



(** X12. The numeric test ignores commas wherever they stand: a text with
    a comma inserted at any place is numeric exactly when the text without
    it is. *)
Theorem numeric_pattern_ignores_commas `{Builtins} (before after : string) :
  is_numeric_pattern (String.append before (String "," after))
  = is_numeric_pattern (String.append before after).
Proof. unfold is_numeric_pattern. now rewrite remove_commas_comma. Qed.

(** ** Loader *)

Section LoaderEdges.

Lemma notnull_count_le (row : list value) :
  (Loader.notnull_count row <= length row)%nat.
Proof.
  unfold Loader.notnull_count. induction row as [|v row IH]; simpl; [lia|].
  destruct (negb (isna v)); simpl; lia.
Qed.

Lemma notnull_count_full (row : list value) :
  Forall (fun v => isna v = false) row ->
  Loader.notnull_count row = length row.
Proof.
  unfold Loader.notnull_count. induction 1 as [|v row Hv _ IH]; simpl;
    [reflexivity|].
  rewrite Hv. simpl. now rewrite IH.
Qed.

End LoaderEdges.

(** X13. A spreadsheet whose preview has no row gives an error result and
    no table: [idxmax] of nothing raises, and the exception is returned as
    text. A preview read that fails is returned the same way. *)
Theorem empty_sheet_is_a_load_error `{Loader.Readers}
    (uploaded_file : Loader.upload) :
  Loader.endswith (Loader.name uploaded_file) ".csv" = false ->
  (Loader.read_excel_rows uploaded_file 5 = inr [] \/
   exists e, Loader.read_excel_rows uploaded_file 5 = inl e) ->
  exists e : string,
    Loader.read_uploaded_file_basic uploaded_file = (None, Some e).
Proof.
  intros Hname Hpreview. unfold Loader.read_uploaded_file_basic.
  rewrite Hname. destruct Hpreview as [->|[e ->]]; eexists; reflexivity.
Qed.

(** X14. When the first row of the preview has no missing cell and no
    later row is wider, row 0 is taken as the header: the loader returns
    the sheet read with [header=0]. *)
Theorem full_first_row_is_the_header `{Loader.Readers}
    (uploaded_file : Loader.upload) (first : list value)
    (others : list (list value)) :
  Loader.endswith (Loader.name uploaded_file) ".csv" = false ->
  Loader.read_excel_rows uploaded_file 5 = inr (first :: others) ->
  Forall (fun v => isna v = false) first ->
  Forall (fun row => (length row <= length first)%nat) others ->
  Loader.likely_header_row (first :: others) = inr 0 /\
  Loader.read_uploaded_file_basic uploaded_file
  = match Loader.read_excel uploaded_file 0 with
    | inr df => (Some df, None)
    | inl e => (None, Some e)
    end.
Proof.
  intros Hname Hpreview Hfull Hwidth.
  destruct (likely_header_row_greatest_count first others) as (h & Hh & Hrow).
  assert (h = 0%nat) as ->.
  { destruct h as [|h]; [reflexivity|exfalso].
    destruct Hrow as (row & Hrow & _ & Hbefore). simpl in Hrow.
    specialize (Hbefore 0%nat first ltac:(lia) eq_refl).
    rewrite (notnull_count_full first Hfull) in Hbefore.
    pose proof (notnull_count_le row) as Hle.
    rewrite Forall_forall in Hwidth.
    assert (row ∈ others) as Hin by (eapply list_elem_of_lookup_2; exact Hrow).
    specialize (Hwidth row Hin). lia. }
  split; [exact Hh|].
  unfold Loader.read_uploaded_file_basic. now rewrite Hname, Hpreview, Hh.
Qed.

Lemma empty_sheet_is_a_load_error_witness :
  Loader.endswith (Loader.name empty_sheet) ".csv" = false /\
  Loader.read_excel_rows empty_sheet 5 = inr [] /\
  exists e : string, Loader.read_uploaded_file_basic empty_sheet = (None, Some e).
Proof.
  split; [reflexivity|]. split; [reflexivity|].
  apply (empty_sheet_is_a_load_error empty_sheet); [reflexivity|].
  left. reflexivity.
Defined.

Lemma full_first_row_is_the_header_witness :
  Loader.endswith (Loader.name ledger_sheet) ".csv" = false /\
  Loader.read_excel_rows ledger_sheet 5 = inr (snd ledger_sheet) /\
  Loader.likely_header_row (snd ledger_sheet) = inr 0.
Proof.
  split; [reflexivity|]. split; [reflexivity|].
  apply (full_first_row_is_the_header ledger_sheet
           [Str "Date"; Str "Amount"]
           [[Str "01-03-2024"; Num 120]; [Str "02-03-2024"; NaN]]);
    [reflexivity|reflexivity|repeat constructor|repeat constructor].
Defined.

Section TrailingText.

Lemma append_cons (x : ascii) (a b : string) :
  String.append (String x a) b = String x (String.append a b).
Proof. reflexivity. Qed.

Lemma append_assoc_string (a b c : string) :
  String.append (String.append a b) c = String.append a (String.append b c).
Proof.
  induction a as [|x a IH]; [reflexivity|].
  now rewrite !append_cons, IH.
Qed.

Lemma re_match_three_numbers_extend (a b c d e f : nat) (sep : ascii)
    (s rest : string) :
  Re.re_match
    (Re.Cat (digits a b) (Re.Cat (Re.Lit sep) (Re.Cat (digits c d)
       (Re.Cat (Re.Lit sep) (digits e f))))) s = true ->
  Re.re_match
    (Re.Cat (digits a b) (Re.Cat (Re.Lit sep) (Re.Cat (digits c d)
       (Re.Cat (Re.Lit sep) (digits e f))))) (String.append s rest) = true.
Proof.
  rewrite !re_match_three_numbers.
  intros (x & y & z & tail & -> & Hx & Hy & Hz).
  exists x, y, z, (String.append tail rest). split; [|auto].
  repeat (rewrite append_assoc_string || rewrite append_cons). reflexivity.
Qed.

End TrailingText.

(** X15. Whatever follows a date does not matter: a text that satisfies
    the date test still satisfies it with any text appended. *)
Theorem date_pattern_tolerates_trailing_text (value_str rest : string) :
  is_date_pattern value_str = true ->
  is_date_pattern (String.append value_str rest) = true.
Proof.
  unfold is_date_pattern, PyStr.py_any, date_patterns. simpl.
  rewrite !orb_false_r, !orb_true_iff.
  intros [H1|[H2|H3]].
  - left. now apply re_match_three_numbers_extend.
  - right. left. now apply re_match_three_numbers_extend.
  - right. right. now apply re_match_three_numbers_extend.
Qed.

Lemma date_pattern_tolerates_trailing_text_witness :
  is_date_pattern "01-03-2024" = true /\
  is_date_pattern "01-03-2024 opening balance" = true.
Proof.
  split; [reflexivity|].
  apply (date_pattern_tolerates_trailing_text "01-03-2024" " opening balance").
  reflexivity.
Defined.

(** With the date inputs at their initial values, a latest timestamp past
    23:59:59 by half a second is left out. *)
Example half_a_second_past_the_last_second :
  RangeFilter.filter_by_date_range
    {| index := range_index 1;
       columns := [("Date", Datetime64Series
                      [Some (19723 * RangeFilter.day + 86399 * RangeFilter.second
                             + 500000000)])] |}
    {| RangeFilter.date_column := "Date"; RangeFilter.start_date := 19723;
       RangeFilter.end_date := 19723; RangeFilter.skip_filter := false |}
  = (inr {| index := []; columns := [("Date", Datetime64Series [])] |},
     [st_info_available_dates (Some 19723) (Some 19723);
      st_success_filtered 0 1]).
Proof. reflexivity. Qed.

(** ** Range filter, further *)

Section RangeFilterFurther.
Import RangeFilter.

Lemma get_column_select_rows (f : forall A, list A -> list A) (col : string)
    (df : DataFrame) :
  Converter.get_column col (columns (select_rows f df))
  = select_series f <$> Converter.get_column col (columns df).
Proof.
  unfold select_rows. simpl.
  induction (columns df) as [|[label s] cols IH]; simpl; [reflexivity|].
  destruct (String.eqb label col); [reflexivity|exact IH].
Qed.

Lemma select_rows_twice (f g : forall A, list A -> list A) (df : DataFrame) :
  select_rows g (select_rows f df) = select_rows (fun A l => g A (f A l)) df.
Proof.
  unfold select_rows. simpl. f_equal. rewrite map_map. apply map_ext.
  intros [label [vs|ts]]; reflexivity.
Qed.

Lemma by_mask_kept {A} (f : A -> bool) (ts : list A) :
  Forall (fun t => f t = true) (by_mask (map f ts) ts).
Proof.
  induction ts as [|t ts IH]; simpl; [constructor|].
  destruct (f t) eqn:Ht; [constructor; assumption|exact IH].
Qed.

Lemma by_mask_length_le {A B} (f : B -> bool) (ts : list B) (l : list A) :
  (length (by_mask (map f ts) l) <= length (by_mask (map f ts) ts))%nat.
Proof.
  revert l. induction ts as [|t ts IH]; intros l; simpl; [lia|].
  destruct l as [|x l]; [simpl; lia|].
  specialize (IH l). destruct (f t); simpl; lia.
Qed.

Lemma by_mask_all_true {A B} (f : B -> bool) (ts : list B) (l : list A) :
  Forall (fun t => f t = true) ts -> (length l <= length ts)%nat ->
  by_mask (map f ts) l = l.
Proof.
  intros Hall. revert l. induction Hall as [|t ts Ht _ IH]; intros [|x l] Hlen;
    simpl in *; try reflexivity; try lia.
  rewrite Ht. f_equal. apply IH. lia.
Qed.

(** Filtering what the same mask has kept keeps all of it. *)
Lemma by_mask_again {A B} (f : B -> bool) (ts : list B) (l : list A) :
  by_mask (map f (by_mask (map f ts) ts)) (by_mask (map f ts) l)
  = by_mask (map f ts) l.
Proof. apply by_mask_all_true; [apply by_mask_kept|apply by_mask_length_le]. Qed.

Lemma rows_in_range_again (lower upper : Z) (ts : list (option Z)) (df : DataFrame) :
  rows_in_range lower upper (by_mask (map (in_range lower upper) ts) ts)
    (rows_in_range lower upper ts df)
  = rows_in_range lower upper ts df.
Proof.
  unfold rows_in_range. rewrite select_rows_twice. apply select_rows_ext.
  intros A l. apply by_mask_again.
Qed.

Lemma pick_min_le (ts : list (option Z)) (acc : option Z) (m : Z) :
  fold_left (pick Z.min) ts acc = Some m ->
  (forall a, acc = Some a -> m <= a) /\
  (forall t, In (Some t) ts -> m <= t).
Proof.
  revert acc. induction ts as [|o ts IH]; intros acc; simpl.
  - intros ->. split; [intros a [= <-]; lia|intros t []].
  - intros Hm. destruct (IH _ Hm) as [Hacc Hts]. split.
    + intros a ->. destruct o as [b|]; simpl in Hacc.
      * specialize (Hacc _ eq_refl). lia.
      * now apply Hacc.
    + intros t [->|Hin]; [|now apply Hts].
      destruct acc as [a|]; simpl in Hacc; specialize (Hacc _ eq_refl); lia.
Qed.

Lemma pick_max_ge (ts : list (option Z)) (acc : option Z) (m : Z) :
  fold_left (pick Z.max) ts acc = Some m ->
  (forall a, acc = Some a -> a <= m) /\
  (forall t, In (Some t) ts -> t <= m).
Proof.
  revert acc. induction ts as [|o ts IH]; intros acc; simpl.
  - intros ->. split; [intros a [= <-]; lia|intros t []].
  - intros Hm. destruct (IH _ Hm) as [Hacc Hts]. split.
    + intros a ->. destruct o as [b|]; simpl in Hacc.
      * specialize (Hacc _ eq_refl). lia.
      * now apply Hacc.
    + intros t [->|Hin]; [|now apply Hts].
      destruct acc as [a|]; simpl in Hacc; specialize (Hacc _ eq_refl); lia.
Qed.

End RangeFilterFurther.

(** X16. Filtering by the same date range a second time changes nothing:
    applied to its own result, the stage returns that result and notes
    that all data is included. *)
Theorem range_filter_is_idempotent (df : DataFrame)
    (ui : RangeFilter.filter_input) (ts : list (option Z)) :
  Converter.get_column (RangeFilter.date_column ui) (columns df)
  = Some (Datetime64Series ts) ->
  RangeFilter.skip_filter ui = false ->
  RangeFilter.start_date ui <= RangeFilter.end_date ui ->
  exists filtered : DataFrame,
    fst (RangeFilter.filter_by_date_range df ui) = inr filtered /\
    fst (RangeFilter.filter_by_date_range filtered ui) = inr filtered /\
    In (st_info RangeFilter.info_all_included)
      (snd (RangeFilter.filter_by_date_range filtered ui)).
Proof.
  intros Hcol Hskip Hle. apply Z.leb_le in Hle.
  set (lower := lower_bound (RangeFilter.start_date ui)).
  set (upper := upper_bound (RangeFilter.end_date ui)).
  exists (rows_in_range lower upper ts df).
  rewrite (filter_by_date_range_checks_range df ui ts Hcol Hskip), Hle.
  split; [reflexivity|].
  assert (Converter.get_column (RangeFilter.date_column ui)
            (columns (rows_in_range lower upper ts df))
          = Some (Datetime64Series (by_mask (map (in_range lower upper) ts) ts)))
    as Hcol'.
  { unfold rows_in_range. now rewrite get_column_select_rows, Hcol. }
  rewrite (filter_by_date_range_checks_range _ ui _ Hcol' Hskip), Hle.
  cbv zeta. fold lower upper. rewrite rows_in_range_again, Nat.eqb_refl.
  simpl. auto.
Qed.

Lemma range_filter_is_idempotent_witness :
  Converter.get_column "Date" (columns january)
  = Some (Datetime64Series
            (map (fun d => Some (RangeFilter.to_datetime_date d))
               [19723; 19724; 19725; 19726; 19727])) /\
  RangeFilter.skip_filter second_to_third = false /\
  19724 <= 19725 /\
  exists filtered : DataFrame,
    fst (RangeFilter.filter_by_date_range january second_to_third) = inr filtered /\
    fst (RangeFilter.filter_by_date_range filtered second_to_third) = inr filtered /\
    In (st_info RangeFilter.info_all_included)
      (snd (RangeFilter.filter_by_date_range filtered second_to_third)).
Proof.
  split; [reflexivity|]. split; [reflexivity|]. split; [lia|].
  apply (range_filter_is_idempotent january second_to_third
           (map (fun d => Some (RangeFilter.to_datetime_date d))
              [19723; 19724; 19725; 19726; 19727]));
    [reflexivity|reflexivity|simpl; lia].
Defined.

(** X17. After the filter, the chosen column of the result holds no
    missing value and only values within the bounds, and the result has at
    most as many rows as the table. *)
Theorem filtered_column_is_present_and_within_bounds (df : DataFrame)
    (ui : RangeFilter.filter_input) (ts : list (option Z)) :
  Converter.get_column (RangeFilter.date_column ui) (columns df)
  = Some (Datetime64Series ts) ->
  RangeFilter.skip_filter ui = false ->
  RangeFilter.start_date ui <= RangeFilter.end_date ui ->
  exists (filtered : DataFrame) (kept : list (option Z)),
    fst (RangeFilter.filter_by_date_range df ui) = inr filtered /\
    Converter.get_column (RangeFilter.date_column ui) (columns filtered)
    = Some (Datetime64Series kept) /\
    Forall (fun o => exists v, o = Some v /\
                       lower_bound (RangeFilter.start_date ui) <= v
                       <= upper_bound (RangeFilter.end_date ui)) kept /\
    (len filtered <= len df)%nat.
Proof.
  intros Hcol Hskip Hle. apply Z.leb_le in Hle.
  set (lower := lower_bound (RangeFilter.start_date ui)).
  set (upper := upper_bound (RangeFilter.end_date ui)).
  exists (rows_in_range lower upper ts df),
    (by_mask (map (in_range lower upper) ts) ts).
  rewrite (filter_by_date_range_checks_range df ui ts Hcol Hskip), Hle.
  split; [reflexivity|]. split; [|split].
  - unfold rows_in_range. now rewrite get_column_select_rows, Hcol.
  - eapply Forall_impl; [apply by_mask_kept|].
    intros o Ho. now apply in_range_iff.
  - unfold rows_in_range, len. simpl.
    apply sublist_length, by_mask_sublist.
Qed.

Section DefaultRange.
Import RangeFilter.

Lemma pick_max_attained (ts : list (option Z)) (acc : option Z) (m : Z) :
  fold_left (pick Z.max) ts acc = Some m -> acc = Some m \/ In (Some m) ts.
Proof.
  revert acc. induction ts as [|o ts IH]; intros acc; simpl; [now left|].
  intros Hm. destruct (IH _ Hm) as [Hpick|Hin]; [|now right; right].
  destruct acc as [a|], o as [b|]; simpl in Hpick; auto.
  injection Hpick as <-.
  destruct (Z.max_spec a b) as [[_ ->]|[_ ->]]; auto.
Qed.

(** The day of a timestamp begins no later than the timestamp; a
    timestamp on a whole second lies at most one second before the next
    day. *)
Lemma day_bounds (t : Z) :
  date_of t * day <= t /\ (t mod second = 0 -> t <= (date_of t + 1) * day - second).
Proof.
  unfold date_of, day, second. split.
  - pose proof (Z.mul_div_le t (86400 * 1000000000) ltac:(lia)). lia.
  - intros Hwhole.
    pose proof (Z.div_mod t 1000000000 ltac:(lia)) as Hs.
    pose proof (Z.div_mod t (86400 * 1000000000) ltac:(lia)) as Hd.
    pose proof (Z.mod_pos_bound t (86400 * 1000000000) ltac:(lia)) as Hr.
    lia.
Qed.

End DefaultRange.

(** X18. With the two date inputs left at their initial values (the day
    of the earliest and of the latest timestamp of the column) and the
    latest timestamp on a whole second, the filter keeps exactly the rows
    that have a date: every row with a timestamp stays, every row with a
    missing one goes. *)
Theorem default_range_keeps_the_rows_with_a_date (df : DataFrame)
    (ui : RangeFilter.filter_input) (ts : list (option Z)) (earliest latest : Z) :
  Converter.get_column (RangeFilter.date_column ui) (columns df)
  = Some (Datetime64Series ts) ->
  RangeFilter.skip_filter ui = false ->
  RangeFilter.series_min ts = Some earliest ->
  RangeFilter.series_max ts = Some latest ->
  RangeFilter.start_date ui = RangeFilter.date_of earliest ->
  RangeFilter.end_date ui = RangeFilter.date_of latest ->
  latest mod RangeFilter.second = 0 ->
  fst (RangeFilter.filter_by_date_range df ui)
  = inr (select_rows (fun A => by_mask (map present ts)) df).
Proof.
  intros Hcol Hskip Hmin Hmax Hstart Hend Hwhole.
  unfold RangeFilter.series_min in Hmin. unfold RangeFilter.series_max in Hmax.
  destruct (pick_min_le ts None earliest Hmin) as [_ Hlow].
  destruct (pick_max_ge ts None latest Hmax) as [_ Hhigh].
  destruct (pick_max_attained ts None latest Hmax) as [?|Hin]; [discriminate|].
  pose proof (Hlow latest Hin) as Horder.
  destruct (day_bounds earliest) as [Hfloor _].
  destruct (day_bounds latest) as [_ Hceil]. specialize (Hceil Hwhole).
  assert (RangeFilter.start_date ui <= RangeFilter.end_date ui) as Hle.
  { rewrite Hstart, Hend. unfold RangeFilter.date_of.
    apply Z.div_le_mono; [unfold RangeFilter.day, RangeFilter.second; lia|exact Horder]. }
  rewrite (filter_by_date_range_checks_range df ui ts Hcol Hskip).
  apply Z.leb_le in Hle. rewrite Hle. cbv zeta. simpl.
  unfold rows_in_range. do 2 f_equal.
  assert (map (in_range (lower_bound (RangeFilter.start_date ui))
                 (upper_bound (RangeFilter.end_date ui))) ts
          = map present ts) as ->; [|reflexivity].
  apply map_ext_in. intros [t|] Ht; [|reflexivity]. simpl.
  unfold lower_bound, upper_bound. rewrite Hstart, Hend.
  specialize (Hlow t Ht). specialize (Hhigh t Ht).
  apply andb_true_iff. rewrite !Z.leb_le. lia.
Qed.

Lemma default_range_keeps_the_rows_with_a_date_witness :
  fst (RangeFilter.filter_by_date_range gaps first_to_last)
  = inr (select_rows (fun A => by_mask [true; false; true]) gaps).
Proof.
  apply (default_range_keeps_the_rows_with_a_date gaps first_to_last
           [Some (19723 * RangeFilter.day); None;
            Some (19725 * RangeFilter.day + 86399 * RangeFilter.second)]
           (19723 * RangeFilter.day)
           (19725 * RangeFilter.day + 86399 * RangeFilter.second));
    reflexivity.
Defined.

(** ** Temporal converter, further *)

Section ConverterFurther.
Context `{Builtins}.
Import Converter.

Lemma get_column_labels (col : string) (cols : list (string * Series)) :
  is_Some (get_column col cols) <-> In col (map fst cols).
Proof.
  induction cols as [|[n s] cols IH]; simpl.
  - split; [intros [x Hx]; discriminate|intros []].
  - destruct (String.eqb_spec n col) as [->|Hne].
    + split; [now left|eauto].
    + rewrite IH. split; [now right|intros [?|?]; [congruence|assumption]].
Qed.

Lemma set_column_same (col : string) (s : Series) (cols : list (string * Series)) :
  get_column col cols = Some s -> set_column col s cols = cols.
Proof.
  induction cols as [|[n old] cols IH]; simpl; [reflexivity|].
  destruct (String.eqb n col); [now intros [= ->]|].
  intros Hget. now rewrite IH.
Qed.

Lemma convert_loop_fixed (todo : list string) (cols : list (string * Series)) :
  (forall n s, In n todo -> get_column n cols = Some s -> to_datetime s = s) ->
  fst (fst (convert_loop todo cols)) = cols.
Proof.
  induction todo as [|col todo IH]; intros Hdone; simpl; [reflexivity|].
  destruct (get_column col cols) as [s|] eqn:Hs.
  - rewrite (Hdone col s (or_introl eq_refl) Hs), (set_column_same col s cols Hs).
    specialize (IH (fun n s' Hn => Hdone n s' (or_intror Hn))).
    destruct (convert_loop todo cols) as [[cols' ok] failed]. exact IH.
  - specialize (IH (fun n s' Hn => Hdone n s' (or_intror Hn))).
    destruct (convert_loop todo cols) as [[cols' ok] failed]. exact IH.
Qed.

Lemma convert_loop_missing (todo : list string) (cols : list (string * Series)) :
  (forall n, In n todo -> get_column n cols = None) ->
  convert_loop todo cols = (cols, [], todo).
Proof.
  induction todo as [|col todo IH]; intros Hmissing; simpl; [reflexivity|].
  rewrite (Hmissing col (or_introl eq_refl)).
  now rewrite (IH (fun n Hn => Hmissing n (or_intror Hn))).
Qed.

Lemma length_to_datetime (s : Series) :
  length (series_values (to_datetime s)) = length (series_values s).
Proof. destruct s; simpl; now rewrite ?length_map. Qed.

Lemma get_column_Forall (P : string * Series -> Prop) (col : string) (s : Series)
    (cols : list (string * Series)) :
  Forall P cols -> get_column col cols = Some s -> exists n, P (n, s).
Proof.
  intros Hall Hget. apply get_column_elem in Hget.
  rewrite Forall_forall in Hall. eauto.
Qed.

Lemma set_column_Forall (P : Series -> Prop) (col : string) (s : Series)
    (cols : list (string * Series)) :
  P s -> Forall (fun c => P (snd c)) cols ->
  Forall (fun c => P (snd c)) (set_column col s cols).
Proof.
  intros Hs. induction 1 as [|[n old] cols Hold Hcols IH]; simpl; [constructor|].
  destruct (String.eqb n col); constructor; assumption.
Qed.

Lemma convert_loop_Forall (P : Series -> Prop) (todo : list string)
    (cols : list (string * Series)) :
  (forall s, P s -> P (to_datetime s)) ->
  Forall (fun c => P (snd c)) cols ->
  Forall (fun c => P (snd c)) (fst (fst (convert_loop todo cols))).
Proof.
  intros Hconv. revert cols. induction todo as [|col todo IH]; intros cols Hcols;
    simpl; [exact Hcols|].
  destruct (get_column col cols) as [s|] eqn:Hs.
  - assert (P s) as Hps.
    { apply get_column_elem in Hs. rewrite Forall_forall in Hcols.
      exact (Hcols _ Hs). }
    specialize (IH (set_column col (to_datetime s) cols)
                  (set_column_Forall P col _ cols (Hconv s Hps) Hcols)).
    destruct (convert_loop todo _) as [[cols' ok] failed]. exact IH.
  - specialize (IH cols Hcols).
    destruct (convert_loop todo cols) as [[cols' ok] failed]. exact IH.
Qed.

Lemma datetime_cols_elem (col : string) (s : Series) (df : DataFrame) :
  get_column col (columns df) = Some s -> is_datetime64_any_dtype s = true ->
  In col (RangeFilter.datetime_cols df).
Proof.
  unfold RangeFilter.datetime_cols.
  induction (columns df) as [|[n s'] cols IH]; simpl; [discriminate|].
  destruct (String.eqb_spec n col) as [->|Hne].
  - intros [= ->] ->. now left.
  - intros Hget Hs. destruct (is_datetime64_any_dtype s'); [right|]; now apply IH.
Qed.

Lemma to_datetime_is_datetime (s : Series) :
  is_datetime64_any_dtype (to_datetime s) = true.
Proof. now destruct s. Qed.

Lemma convert_store (σ : gmap nat DataFrame) (df : nat) (frame : DataFrame)
    (ui : convert_input) :
  σ !! df = Some frame ->
  fst (fst (convert_selected_columns_to_datetime σ df ui))
  = if converting ui then
      <[df := {| index := index frame;
                 columns := fst (fst (convert_loop (columns_to_convert ui)
                                        (columns frame))) |}]> σ
    else σ.
Proof.
  intros Hframe. unfold convert_selected_columns_to_datetime, converting.
  rewrite Hframe. destruct (columns_to_convert ui) as [|c todo]; [reflexivity|].
  destruct (convert_clicked ui); [|reflexivity].
  now destruct (convert_loop (c :: todo) (columns frame)) as [[cols' ok] failed].
Qed.

End ConverterFurther.

(** X19. After a conversion, every chosen column of the table is a
    datetime column: the date-range stage finds it among the columns it
    offers, and no longer answers that there is no datetime column. *)
Theorem converted_columns_are_offered_to_the_filter `{Builtins}
    (σ : gmap nat DataFrame) (df : nat) (frame : DataFrame)
    (ui : Converter.convert_input) (col : string) :
  σ !! df = Some frame ->
  Converter.convert_clicked ui = true ->
  In col (Converter.columns_to_convert ui) ->
  In col (map fst (columns frame)) ->
  exists frame' : DataFrame,
    converted σ df ui = Some frame' /\
    In col (RangeFilter.datetime_cols frame') /\
    forall fui : RangeFilter.filter_input,
      RangeFilter.filter_by_date_range frame' fui
      <> (inr frame', [st_info RangeFilter.info_no_datetime]).
Proof.
  intros Hframe Hclick Hchosen Hlabel.
  unfold converted, Converter.convert_selected_columns_to_datetime.
  rewrite Hframe, Hclick.
  destruct (Converter.columns_to_convert ui) as [|c todo] eqn:Htodo;
    [destruct Hchosen|].
  pose proof (convert_loop_frame (c :: todo) (columns frame)) as Hloop.
  destruct (Converter.convert_loop (c :: todo) (columns frame))
    as [[cols' ok] failed]. simpl in Hloop.
  destruct Hloop as (_ & _ & _ & Hconv).
  apply get_column_labels in Hlabel as [s Hs].
  exists {| index := index frame; columns := cols' |}. simpl.
  rewrite lookup_insert_eq. split; [reflexivity|].
  assert (In col (RangeFilter.datetime_cols
                    {| index := index frame; columns := cols' |})) as Hin.
  { apply (datetime_cols_elem col (Converter.to_datetime s));
      [now apply Hconv|apply to_datetime_is_datetime]. }
  split; [exact Hin|].
  intros fui. unfold RangeFilter.filter_by_date_range.
  destruct (RangeFilter.datetime_cols _) as [|d ds]; [destruct Hin|].
  simpl.
  destruct (Converter.get_column (RangeFilter.date_column fui) cols')
    as [[vs|ts]|]; try (intros Heq; discriminate Heq).
  destruct (RangeFilter.skip_filter fui); [simpl; intros Heq; discriminate Heq|].
  destruct (_ <=? _); simpl; intros Heq; discriminate Heq.
Qed.

(** X20. Converting the same columns again changes nothing: the second
    conversion leaves the table of the first. *)
Theorem conversion_is_idempotent `{Builtins}
    (σ : gmap nat DataFrame) (df : nat) (frame : DataFrame)
    (ui : Converter.convert_input) :
  σ !! df = Some frame ->
  let σ' := fst (fst (Converter.convert_selected_columns_to_datetime σ df ui)) in
  fst (fst (Converter.convert_selected_columns_to_datetime σ' df ui)) = σ'.
Proof.
  intros Hframe σ'. subst σ'.
  rewrite (convert_store σ df frame ui Hframe).
  destruct (converting ui) eqn:Hconverting.
  2:{ now rewrite (convert_store σ df frame ui Hframe), Hconverting. }
  set (cols' := fst (fst (Converter.convert_loop
                            (Converter.columns_to_convert ui) (columns frame)))).
  rewrite (convert_store _ df {| index := index frame; columns := cols' |} ui)
    by apply lookup_insert_eq.
  rewrite Hconverting. cbn [columns index].
  pose proof (convert_loop_frame (Converter.columns_to_convert ui)
                (columns frame)) as Hloop.
  cbv zeta in Hloop. fold cols' in Hloop.
  destruct Hloop as (Hlabels & _ & _ & Hconv).
  rewrite convert_loop_fixed; [apply insert_insert_eq|].
  intros n s' Hn Hs'.
  assert (is_Some (Converter.get_column n (columns frame))) as [s Hs].
  { apply get_column_labels. rewrite <- Hlabels. apply get_column_labels. eauto. }
  rewrite (Hconv n s Hs Hn) in Hs'. injection Hs' as <-.
  apply to_datetime_idem.
Qed.

Lemma conversion_is_idempotent_witness :
  ({[ 0%nat := readings ]} : gmap nat DataFrame) !! 0%nat = Some readings /\
  fst (fst (Converter.convert_selected_columns_to_datetime
              (fst (fst (Converter.convert_selected_columns_to_datetime
                           {[ 0%nat := readings ]} 0%nat convert_when)))
              0%nat convert_when))
  = fst (fst (Converter.convert_selected_columns_to_datetime
                {[ 0%nat := readings ]} 0%nat convert_when)).
Proof.
  split; [reflexivity|].
  apply (conversion_is_idempotent {[ 0%nat := readings ]} 0%nat readings
           convert_when).
  reflexivity.
Defined.

(** X21. The conversion keeps a rectangular table rectangular: the row
    labels stay, and every column, converted or not, keeps its length. *)
Theorem conversion_keeps_tables_rectangular `{Builtins}
    (σ : gmap nat DataFrame) (df : nat) (frame : DataFrame)
    (ui : Converter.convert_input) :
  σ !! df = Some frame ->
  well_formed frame ->
  exists frame' : DataFrame,
    converted σ df ui = Some frame' /\
    len frame' = len frame /\ well_formed frame'.
Proof.
  intros Hframe Hwf.
  unfold converted, Converter.convert_selected_columns_to_datetime.
  rewrite Hframe.
  destruct (Converter.columns_to_convert ui) as [|c todo] eqn:Htodo;
    [exists frame; simpl; auto|].
  destruct (Converter.convert_clicked ui); [|exists frame; simpl; auto].
  pose proof (convert_loop_Forall
                (fun s => length (series_values s) = len frame)
                (c :: todo) (columns frame)
                ltac:(intros s Hs; cbv beta in *; now rewrite length_to_datetime) Hwf) as Hloop.
  destruct (Converter.convert_loop (c :: todo) (columns frame))
    as [[cols' ok] failed]. simpl in *.
  exists {| index := index frame; columns := cols' |}.
  rewrite lookup_insert_eq. repeat split. exact Hloop.
Qed.

(** X22. A chosen label the table does not have is reported as failed and
    changes nothing: when none of the chosen labels is a column, the store
    is as before, the failure is shown and the run is restarted. *)
Theorem missing_labels_are_reported_and_change_nothing `{Builtins}
    (σ : gmap nat DataFrame) (df : nat) (frame : DataFrame)
    (ui : Converter.convert_input) :
  σ !! df = Some frame ->
  Converter.convert_clicked ui = true ->
  Converter.columns_to_convert ui <> [] ->
  (forall col, In col (Converter.columns_to_convert ui) ->
     ~ In col (map fst (columns frame))) ->
  let result := Converter.convert_selected_columns_to_datetime σ df ui in
  fst (fst result) = σ /\
  In (st_error_failed (Converter.columns_to_convert ui)) (snd (fst result)) /\
  (forall cols, ~ In (st_success_converted cols) (snd (fst result))) /\
  snd result = Converter.Rerun.
Proof.
  intros Hframe Hclick Hsome Hmissing result. subst result.
  unfold Converter.convert_selected_columns_to_datetime.
  rewrite Hframe, Hclick.
  destruct (Converter.columns_to_convert ui) as [|c todo] eqn:Htodo;
    [congruence|].
  rewrite convert_loop_missing.
  2:{ intros n Hn. destruct (Converter.get_column n (columns frame)) eqn:Hget;
        [|reflexivity].
      exfalso. apply (Hmissing n Hn). apply get_column_labels. eauto. }
  simpl. split.
  - destruct frame. simpl. now apply insert_id.
  - split; [apply in_or_app; right; now left|]. split; [|reflexivity].
    intros cols Hin. apply in_app_or in Hin as [Hin|[Hin|[]]]; [|discriminate].
    destruct (Converter.show_types ui); [|destruct Hin].
    apply in_map_iff in Hin as (x & Hx & _). discriminate.
Qed.

Section ModesProperties.
Context `{Builtins}.

Lemma select_rows_agree (f g : forall A, list A -> list A) (df : DataFrame) :
  f _ (index df) = g _ (index df) ->
  Forall (fun c => select_series f (snd c) = select_series g (snd c)) (columns df) ->
  select_rows f df = select_rows g df.
Proof.
  intros Hidx Hcols. unfold select_rows. f_equal; [exact Hidx|].
  induction Hcols as [|[label s] cols Hs _ IH]; simpl; [reflexivity|].
  simpl in Hs. now rewrite Hs, IH.
Qed.

Lemma py_slice_as_mask {A} (a b : Z) (l : list A) :
  py_slice a b l
  = by_mask (repeat false (slice_bound (length l) a) ++
             repeat true (slice_bound (length l) b - slice_bound (length l) a))%list
      l.
Proof.
  unfold py_slice. rewrite by_mask_repeat_false.
  rewrite <- (app_nil_r (repeat true _)), by_mask_repeat_true.
  simpl. now rewrite app_nil_r.
Qed.

Lemma iloc_rows_of (a b : Z) (df : DataFrame) :
  well_formed df -> rows_of (iloc a b df) df.
Proof.
  intros Hwf.
  exists (repeat false (slice_bound (len df) a) ++
          repeat true (slice_bound (len df) b - slice_bound (len df) a))%list.
  unfold iloc. apply select_rows_agree.
  - apply py_slice_as_mask.
  - unfold well_formed in Hwf. eapply Forall_impl; [exact Hwf|].
    intros [label [vs|ts]] Hlen; simpl in *; f_equal.
    + rewrite <- Hlen. apply py_slice_as_mask.
    + rewrite length_map in Hlen. rewrite <- Hlen. apply py_slice_as_mask.
Qed.

End ModesProperties.

(** X23. Whatever the mode and the values of its widgets, the processing
    step only drops rows of a rectangular table: the result is the table
    itself or rows of it, whole and in their order, under the same column
    labels, and it is rectangular again. *)
Theorem processing_only_drops_rows `{Builtins} (df : DataFrame)
    (ui : process_input) :
  well_formed df ->
  let result := fst (process_data_with_user_options df ui) in
  (result = df \/ rows_of result df) /\
  map fst (columns result) = map fst (columns df) /\
  index result `sublist_of` index df /\
  well_formed result.
Proof.
  intros Hwf result.
  assert ((result = df \/ rows_of result df) /\ well_formed result) as [Hrows Hwf'].
  { unfold result, process_data_with_user_options.
    destruct (String.eqb _ "Use all data as-is"); [simpl; auto|].
    destruct (String.eqb _ "Manual selection"); simpl.
    - pose proof (iloc_rows_of (start_row (manual_ui ui))
                    (end_row (manual_ui ui) + 1) df Hwf) as Hrows.
      split; [now right|]. now apply (rows_of_well_formed _ df).
    - unfold auto_detect_with_options_sidebar.
      destruct (apply_clicked (auto_ui ui)); [|simpl; auto].
      pose proof (apply_auto_detection_rows df
                    (sidebar_skip_words (skip_words_input (auto_ui ui)))
                    (detection_method (auto_ui ui)) (cut_at_empty (auto_ui ui)))
        as Hrows.
      cbv zeta in Hrows. split; [exact Hrows|].
      destruct Hrows as [->|Hrows]; [exact Hwf|].
      now apply (rows_of_well_formed _ df). }
  split; [exact Hrows|]. split; [|split; [|exact Hwf']].
  - destruct Hrows as [->|(mask & ->)]; [reflexivity|apply select_rows_same_labels].
  - destruct Hrows as [->|(mask & ->)]; [reflexivity|apply by_mask_sublist].
Qed.

(** X24. Reset gives the processed table the content of the original as a
    new object and clears the history; every table of the store stays as it
    was. A conversion of the processed table afterwards, which works in
    place, therefore cannot reach the original. *)
Theorem reset_keeps_the_original_apart `{Builtins}
    (σ : gmap nat DataFrame) (s : Session.state) (original : nat)
    (frame : DataFrame) :
  Session.original_data s = Some original ->
  σ !! original = Some frame ->
  let σ1 := fst (fst (Session.reset_data σ s)) in
  let s1 := snd (fst (Session.reset_data σ s)) in
  exists processed : nat,
    Session.processed_data s1 = Some processed /\
    processed <> original /\
    σ1 !! processed = Some frame /\
    (forall r, r <> processed -> σ1 !! r = σ !! r) /\
    Session.original_data s1 = Some original /\
    Session.processing_history s1 = [] /\
    forall ui : Converter.convert_input,
      fst (fst (Converter.convert_selected_columns_to_datetime σ1 processed ui))
        !! original = Some frame.
Proof.
  intros Horiginal Hframe σ1 s1. subst σ1 s1.
  unfold Session.reset_data, Session.copy. rewrite Horiginal, Hframe. simpl.
  set (p := fresh (dom σ)).
  assert (p <> original) as Hne.
  { intros Heq. apply (is_fresh (dom σ)). fold p. rewrite Heq.
    apply elem_of_dom. eauto. }
  exists p. split; [reflexivity|]. split; [exact Hne|].
  split; [apply lookup_insert_eq|].
  split; [intros r Hr; now apply lookup_insert_ne|].
  split; [reflexivity|]. split; [reflexivity|].
  intros ui.
  rewrite (convert_store _ p frame ui) by apply lookup_insert_eq.
  destruct (converting ui); now rewrite !lookup_insert_ne.
Qed.

Lemma reset_keeps_the_original_apart_witness :
  Session.original_data loaded = Some 0%nat /\
  ({[ 0%nat := readings ]} : gmap nat DataFrame) !! 0%nat = Some readings /\
  exists processed : nat,
    Session.processed_data
      (snd (fst (Session.reset_data {[ 0%nat := readings ]} loaded)))
    = Some processed /\
    processed <> 0%nat.
Proof.
  split; [reflexivity|]. split; [reflexivity|].
  destruct (reset_keeps_the_original_apart {[ 0%nat := readings ]} loaded
              0%nat readings ltac:(reflexivity) ltac:(reflexivity))
    as (p & Hp & Hne & _).
  exists p. split; [exact Hp|exact Hne].
Defined.

Lemma filtered_column_is_present_and_within_bounds_witness :
  exists (filtered : DataFrame) (kept : list (option Z)),
    fst (RangeFilter.filter_by_date_range gaps first_to_last) = inr filtered /\
    Converter.get_column "Date" (columns filtered) = Some (Datetime64Series kept) /\
    Forall (fun o => exists v, o = Some v /\
                       lower_bound 19723 <= v <= upper_bound 19725) kept /\
    (len filtered <= len gaps)%nat.
Proof.
  apply (filtered_column_is_present_and_within_bounds gaps first_to_last
           [Some (19723 * RangeFilter.day); None;
            Some (19725 * RangeFilter.day + 86399 * RangeFilter.second)]);
    [reflexivity|reflexivity|simpl; lia].
Defined.

Lemma converted_columns_are_offered_to_the_filter_witness :
  exists frame' : DataFrame,
    converted {[ 0%nat := readings ]} 0%nat convert_when = Some frame' /\
    In "When" (RangeFilter.datetime_cols frame').
Proof.
  destruct (converted_columns_are_offered_to_the_filter
              {[ 0%nat := readings ]} 0%nat readings convert_when "When")
    as (frame' & Hframe' & Hin & _);
    [reflexivity|reflexivity|now left|now left|].
  exists frame'. split; [exact Hframe'|exact Hin].
Defined.

Lemma conversion_keeps_tables_rectangular_witness :
  well_formed readings /\
  exists frame' : DataFrame,
    converted {[ 0%nat := readings ]} 0%nat convert_when = Some frame' /\
    len frame' = len readings /\ well_formed frame'.
Proof.
  split; [repeat constructor|].
  apply (conversion_keeps_tables_rectangular {[ 0%nat := readings ]} 0%nat
           readings convert_when); [reflexivity|repeat constructor].
Defined.

Lemma missing_labels_are_reported_and_change_nothing_witness :
  fst (fst (Converter.convert_selected_columns_to_datetime
              {[ 0%nat := readings ]} 0%nat convert_missing))
  = {[ 0%nat := readings ]}.
Proof.
  apply (missing_labels_are_reported_and_change_nothing
           {[ 0%nat := readings ]} 0%nat readings convert_missing);
    [reflexivity|reflexivity|discriminate|].
  intros col [<-|[]] [Hin|[Hin|[]]]; discriminate.
Defined.

Lemma processing_only_drops_rows_witness :
  well_formed statement /\
  well_formed (fst (process_data_with_user_options statement manual_two_to_three)).
Proof.
  split; [repeat constructor|].
  apply (processing_only_drops_rows statement manual_two_to_three).
  repeat constructor.
Defined.
